(** * DZK BACnet zone accessory: a shallow embedding of
      [src/accessories/dzk-bacnet.ts] and the properties of its zone
      controller and of its stale-read bridge.

    Conventions of the model.
    - A JavaScript [number] is a rational ([Q]); [a > 0] is [Qgtb a 0],
      the [case] labels of a [switch] compare with [Qeq_bool] (strict
      equality on numbers).  NaN, infinities and rounding are outside the
      model.  The configured zone number is an integer ([Z]) because it is
      spliced into a property name.
    - An object literal used as a table is an association list of
      [(key, value)] pairs; reading an absent key yields [None]
      (JavaScript's [undefined]), and reading a property of [undefined]
      throws [TypeError].
    - The transport ([asyncReadPresentValue], [asyncWritePresentValue]) and
      [objectStringParser] live in other modules.  A request records the
      device address and the directory's object string handed to them; the
      reply of the network is supplied by the environment.
    - An [async] function is a resumption: it runs up to its next [await],
      hands back the state reached so far, and is resumed later with the
      reply and with the state as it is then.
    - The trace keeps the callbacks, the error log, the transport requests
      and the unhandled rejections; [log.debug] and [log.info] are left
      out, and so is the registration of services with homebridge. *)

From Stdlib Require Import ZArith QArith String Ascii List Bool Lia Lqa.
From Stdlib Require Import DecimalString DecimalZ.
Import ListNotations.

Local Open Scope string_scope.
Local Open Scope Q_scope.

(** ** Numbers *)

Definition number : Type := Q.

(** [a > b] on numbers. *)
Definition Qgtb (a b : number) : bool := negb (Qle_bool a b).

(** [String(z)] for an integer [z], as used by ["zone" + zno]: the decimal
    digits, with a minus sign for a negative number.  (From 1e21 on
    JavaScript switches to exponent notation; such a name is no more a key
    of the directory than the digits are.) *)
Definition string_of_number (z : Z) : string :=
  NilEmpty.string_of_int (Z.to_int z).

(** ** The HAP characteristic constants copied into the source *)

Module TemperatureDisplayUnits.
Definition CELSIUS : number := 0.
Definition FAHRENHEIT : number := 1.
End TemperatureDisplayUnits.

Module CurrentHeatingCoolingState.
Definition OFF : number := 0.
Definition HEAT : number := 1.
Definition COOL : number := 2.
End CurrentHeatingCoolingState.

Module TargetHeatingCoolingState.
Definition OFF : number := 0.
Definition HEAT : number := 1.
Definition COOL : number := 2.
Definition AUTO : number := 3.
End TargetHeatingCoolingState.

Module CurrentFanState.
Definition INACTIVE : number := 0.
Definition IDLE : number := 1.
Definition BLOWING_AIR : number := 2.
End CurrentFanState.

Module DzkOperationMode.
Definition AUTO : number := 1.
Definition COOL : number := 2.
Definition HEAT : number := 3.
Definition DRY : number := 4.
End DzkOperationMode.

(** ** Fahrenheit to Celsius and back *)

(** The two conversions, computed exactly.  The program computes them in
    IEEE doubles, where the results are rounded: the properties below use
    where these values go, never an identity of their arithmetic. *)

Definition f2c (ff : number) : number := ((ff - 32) * 5) / 9.

Definition c2f (cc : number) : number := (cc * 9) / 5 + 32.

(** ** The object directory *)

Record DzkBacObject : Type := mkOb { n : string; d : string; rw : string }.

(** A scope of the directory: the object literal of one zone, or the
    global one. *)
Definition scope : Type := list (string * DzkBacObject).

(** Property read [o[key]] on an object literal.  The program reads its
    tables under the keys written in the literals, under ["zone" + zno] and
    under the empty string only, none of which names an inherited
    property. *)
Fixpoint prop {A : Type} (o : list (string * A)) (key : string) : option A :=
  match o with
  | [] => None
  | (k, v) :: rest => if String.eqb k key then Some v else prop rest key
  end.

Module dzk_objects.

Definition global : scope :=
    [ ("iu-status-onoff", mkOb "BI:0" "IU Status ON/OFF" "R");
      ("dzk-system-input-alarm", mkOb "BI:1" "DZK system input alarm" "R");
      ("dzk-global-fan", mkOb "BV:0" "DZK Global Fan" "R");
      ("dzk-aux-heat1", mkOb "BV:1" "DZK Aux Heat1" "R");
      ("dzk-aux-heat2", mkOb "BV:2" "DZK Aux Heat2" "R");
      ("dzk-bacnet-communication-error",
         mkOb "BV:27" "DZK/BACnet Interface communication error" "R");
      ("iu-speed", mkOb "MI:0" "IU speed" "R");
      ("iu-errors", mkOb "MI:1" "IU errors" "R");
      ("dzk-error", mkOb "MI:2" "DZK error" "R");
      ("dzk-operation-mode", mkOb "MO:0" "DZK operation mode" "R/W");
      ("dzk-user-mode", mkOb "MO:1" "DZK user mode" "R/W");
      ("iu-set-point", mkOb "AV:0" "IU Set Point" " R/W");
      ("dzk-address", mkOb "AV:13" "DZK address (DK AirNet address)" "R");
      ("dzk-group-address",
         mkOb "AV:14" "DZK group address (DK group address)" "R") ].

Definition zone1 : scope :=
    [ ("onoff", mkOb "BV:3" "Z1 ON/OFF" "R/W");
      ("local-ventilation", mkOb "BV:4" "Z1 Local Ventilation" "R/W");
      ("vacation-override", mkOb "BV:5" "Z1 Vacation override" "R");
      ("unoccupied-override", mkOb "BV:6" "Z1 Unoccupied override" "R");
      ("room-temperature", mkOb "AI:0" "Z1 Room temperature" "R");
      ("heat-set-point", mkOb "AV:1" "Z1 Heat Set Point" "R/W");
      ("cold-set-point", mkOb "AV:2" "Z1 Cold Set Point" "R/W");
      ("humidity", mkOb "AV:33" "Z1 humidity" "R");
      ("cooling-demand", mkOb "AV:15" "Z1 cooling demand (%)" "R");
      ("heating-demand", mkOb "AV:16" "Z1 heating demand (%)" "R");
      ("aux-heating-demand-(%)", mkOb "AV:17" "Z1 aux heating demand (%)" "R");
      ("opening-step-damper", mkOb "MV:0" "Z1 opening step damper" "R") ].

Definition zone2 : scope :=
    [ ("onoff", mkOb "BV:7" "Z2 ON/OFF" "R/W");
      ("local-ventilation", mkOb "BV:8" "Z2 Local ventilation" "R/W");
      ("vacation-override", mkOb "BV:9" "Z2 Vacation override" "R");
      ("unoccupied-override", mkOb "BV:10" "Z2 Unoccupied override" "R");
      ("room-temperature", mkOb "AI:1" "Z2 Room temperature" "R");
      ("heat-set-point", mkOb "AV:3" "Z2 Heat Set Point" "R/W");
      ("cold-set-point", mkOb "AV:4" "Z2 Cold Set Point" "R/W");
      ("cooling-demand", mkOb "AV:18" "Z2 cooling demand (%)" "R");
      ("heating-demand", mkOb "AV:19" "Z2 heating demand (%)" "R");
      ("aux-heating-demand", mkOb "AV:20" "Z2 aux heating demand (%)" "R");
      ("humidity", mkOb "AV:34" "Z2 humidity" "R");
      ("opening-step-damper", mkOb "MV:1" "Z2 opening step damper" "R") ].

Definition zone3 : scope :=
    [ ("onoff", mkOb "BV:11" "Z3 ON/OFF" "R/W");
      ("local-ventilation", mkOb "BV:12" "Z3 Local ventilation" "R/W");
      ("vacation-override", mkOb "BV:13" "Z3 Vacation override" "R");
      ("unoccupied-override", mkOb "BV:14" "Z3 Unoccupied override" "R");
      ("room-temperature", mkOb "AI:2" "Z3 Room temperature" "R");
      ("heat-set-point", mkOb "AV:5" "Z3 Heat Set Point" "R/W");
      ("cold-set-point", mkOb "AV:6" "Z3 Cold Set Point" "R/W");
      ("cooling-demand", mkOb "AV:21" "Z3 cooling demand (%)" "R");
      ("heating-demand", mkOb "AV:22" "Z3 heating demand (%)" "R");
      ("aux-heating-demand", mkOb "AV:23" "Z3 aux heating demand (%)" "R");
      ("humidity", mkOb "AV:35" "Z3 humidity" "R");
      ("opening-step-damper", mkOb "MV:2" "Z3 opening step damper" "R") ].

Definition zone4 : scope :=
    [ ("onoff", mkOb "BV:15" "Z4 ON/OFF" "R/W");
      ("local-ventilation", mkOb "BV:16" "Z4 Local ventilation" "R/W");
      ("vacation-override", mkOb "BV:17" "Z4 Vacation override" "R");
      ("unoccupied-override", mkOb "BV:18" "Z4 Unoccupied override" "R");
      ("room-temperature", mkOb "AI:3" "Z4 Room temperature" "R");
      ("heat-set-point", mkOb "AV:7" "Z4 Heat Set Point" "R/W");
      ("cold-set-point", mkOb "AV:8" "Z4 Cold Set Point" "R/W");
      ("cooling-demand", mkOb "AV:24" "Z4 cooling demand (%)" "R");
      ("heating-demand", mkOb "AV:25" "Z4 heating demand (%)" "R");
      ("aux-heating-demand", mkOb "AV:26" "Z4 aux heating demand (%)" "R");
      ("humidity", mkOb "AV:36" "Z4 humidity" "R");
      ("opening-step-damper", mkOb "MV:3" "Z4 opening step damper" "R") ].

Definition zone5 : scope :=
    [ ("onoff", mkOb "BV:19" "Z5 ON/OFF" "R/W");
      ("local-ventilation", mkOb "BV:20" "Z5 Local ventilation" "R/W");
      ("vacation-override", mkOb "BV:21" "Z5 Vacation override" "R");
      ("unoccupied-override", mkOb "BV:22" "Z5 Unoccupied override" "R");
      ("room-temperature", mkOb "AI:4" "Z5 Room temperature" " R");
      ("heat-set-point", mkOb "AV:9" "Z5 Heat Set Point" "R/W");
      ("cold-set-point", mkOb "AV:10" "Z5 Cold Set Point" "R/W");
      ("cooling-demand", mkOb "AV:27" "Z5 cooling demand (%)" "R");
      ("heating-demand", mkOb "AV:28" "Z5 heating demand (%)" "R");
      ("aux-heating-demand", mkOb "AV:29" "Z5 aux heating demand (%)" "R");
      ("humidity", mkOb "AV:37" "Z5 humidity" "R");
      ("opening-step-damper", mkOb "MV:4" "Z5 opening step damper" "R") ].

Definition zone6 : scope :=
    [ ("onoff", mkOb "BV:23" "Z6 ON/OFF" "R/W");
      ("local-ventilation", mkOb "BV:24" "Z6 Local ventilation" "R/W");
      ("vacation-override", mkOb "BV:25" "Z6 Vacation override" "R");
      ("unoccupied-override", mkOb "BV:26" "Z6 Unoccupied override" "R");
      ("room-temperature", mkOb "AI:5" "Z6 Room temperature" " R");
      ("heat-set-point", mkOb "AV:11" "Z6 Heat Set Point" "R/W");
      ("cold-set-point", mkOb "AV:12" "Z6 Cold Set Point" "R/W");
      ("cooling-demand", mkOb "AV:30" "Z6 cooling demand (%)" "R");
      ("heating-demand", mkOb "AV:31" "Z6 heating demand (%)" "R");
      ("aux-heating-demand", mkOb "AV:32" "Z6 aux heating demand (%)" "R");
      ("humidity", mkOb "AV:38" "Z6 humidity" "R");
      ("opening-step-damper", mkOb "MV:5" "Z6 opening step damper" "R") ].

  (** [DzkZone.dzk_objects]. *)
Definition table : list (string * scope) :=
    [ ("global", global); ("zone1", zone1); ("zone2", zone2);
      ("zone3", zone3); ("zone4", zone4); ("zone5", zone5);
      ("zone6", zone6) ].

End dzk_objects.

(** ** Errors, transport requests and replies *)

Inductive error : Type :=
| TypeError                          (* property read on [undefined] *)
| TransportError (cause : string).   (* the transport's promise rejected *)

Inductive ApplicationTags : Type :=
| BACNET_APPLICATION_TAG_UNSIGNED_INT.

(** The [val: number | ValueObject] argument of a write. *)
Inductive write_value : Type :=
| Plain (value : number)
| ValueObject (type : ApplicationTags) (value : number).

Inductive pv_request : Type :=
| ReadPresentValue (address : string) (object : string)
| WritePresentValue (address : string) (object : string) (val : write_value).

(** What the network answers: the scalar [prop.values[0].value] of a
    response, or a rejection. *)
Inductive reply : Type :=
| Resolved (value : number)
| Rejected (e : error).

(** Outcome of calling a function that is not [async]: it throws, or it
    returns (here: the promise of a transport request). *)
Inductive call (A : Type) : Type :=
| Threw (e : error)
| Returned (a : A).
Arguments Threw {A} e.
Arguments Returned {A} a.

(** ** State *)

(** The static members of class [DzkZone], shared by every zone. *)
Record Statics : Type := mkStatics {
  ipAddress : string;
  dzk_opmode : number
}.

(** The values of the static initialisers. *)
Definition Statics_initial : Statics :=
  {| ipAddress := ""; dzk_opmode := -1 |}.

(** The instance members of class [DzkZone]. *)
Record DzkZone : Type := mkZone {
  zno : Z;
  dzkob : option scope;        (* [None] is [undefined] *)
  lastDemand : number
}.

Module DzkZoneConfig.
Record t : Type := mk { name : string; zone : Z }.
End DzkZoneConfig.

Module DzkConfig.
Record t : Type := mk { ipAddress : string; zones : list DzkZoneConfig.t }.
End DzkConfig.

(** [DzkZoneAccessory.internalStates]. *)
Record InternalStates : Type := mkStates {
  currentHeatingCoolingState : number;
  targetHeatingCoolingState : number;
  currentTemperature : number;
  currentFanState : number;
  coolSetpoint : number;
  heatSetpoint : number;
  targetTemperature : number;
  relativeHumidity : number;
  temperatureDisplayUnits : number
}.

(** The field initialiser of [internalStates]. *)
Definition InternalStates_initial : InternalStates :=
  {| currentHeatingCoolingState := CurrentHeatingCoolingState.OFF;
     targetHeatingCoolingState := TargetHeatingCoolingState.OFF;
     currentTemperature := 20.5;
     currentFanState := 0;
     coolSetpoint := 23.5;
     heatSetpoint := 21.5;
     targetTemperature := 22.0;
     relativeHumidity := 42.2;
     temperatureDisplayUnits := TemperatureDisplayUnits.FAHRENHEIT |}.

(** What the program does to the outside, in order of occurrence. *)
Inductive event : Type :=
| Callback (err : option error) (value : option number)
    (* the homebridge callback: [callback(null, v)] or [callback(null)] *)
| LogError (op : string) (zone : Z) (e : error)
    (* [platform.log.error(`${op}.zone${zone}: An error occured: ${e}`)] *)
| Request (r : pv_request)
    (* a request handed to the transport *)
| UnhandledRejection (e : error).
    (* a promise rejected while nothing awaits or catches it *)

(** The state one accessory can touch: the statics of [DzkZone], its own
    zone controller and cache, its configuration, and the trace. *)
Record World : Type := mkWorld {
  statics : Statics;
  dzkz : DzkZone;
  internalStates : InternalStates;
  device : DzkZoneConfig.t;
  trace : list event
}.

Definition log_event (e : event) (w : World) : World :=
  mkWorld (statics w) (dzkz w) (internalStates w) (device w) (trace w ++ [e]).

Definition set_dzk_opmode (v : number) (w : World) : World :=
  mkWorld (mkStatics (ipAddress (statics w)) v)
          (dzkz w) (internalStates w) (device w) (trace w).

Definition set_lastDemand (v : number) (w : World) : World :=
  mkWorld (statics w)
          (mkZone (zno (dzkz w)) (dzkob (dzkz w)) v)
          (internalStates w) (device w) (trace w).

Definition set_internalStates (s : InternalStates) (w : World) : World :=
  mkWorld (statics w) (dzkz w) s (device w) (trace w).

(** Assignments to the fields of [internalStates]. *)
Definition set_currentHeatingCoolingState (v : number) (s : InternalStates) :=
  mkStates v (targetHeatingCoolingState s) (currentTemperature s)
           (currentFanState s) (coolSetpoint s) (heatSetpoint s)
           (targetTemperature s) (relativeHumidity s)
           (temperatureDisplayUnits s).
Definition set_targetHeatingCoolingState (v : number) (s : InternalStates) :=
  mkStates (currentHeatingCoolingState s) v (currentTemperature s)
           (currentFanState s) (coolSetpoint s) (heatSetpoint s)
           (targetTemperature s) (relativeHumidity s)
           (temperatureDisplayUnits s).
Definition set_currentTemperature (v : number) (s : InternalStates) :=
  mkStates (currentHeatingCoolingState s) (targetHeatingCoolingState s) v
           (currentFanState s) (coolSetpoint s) (heatSetpoint s)
           (targetTemperature s) (relativeHumidity s)
           (temperatureDisplayUnits s).
Definition set_currentFanState (v : number) (s : InternalStates) :=
  mkStates (currentHeatingCoolingState s) (targetHeatingCoolingState s)
           (currentTemperature s) v (coolSetpoint s) (heatSetpoint s)
           (targetTemperature s) (relativeHumidity s)
           (temperatureDisplayUnits s).
Definition set_coolSetpoint (v : number) (s : InternalStates) :=
  mkStates (currentHeatingCoolingState s) (targetHeatingCoolingState s)
           (currentTemperature s) (currentFanState s) v (heatSetpoint s)
           (targetTemperature s) (relativeHumidity s)
           (temperatureDisplayUnits s).
Definition set_heatSetpoint (v : number) (s : InternalStates) :=
  mkStates (currentHeatingCoolingState s) (targetHeatingCoolingState s)
           (currentTemperature s) (currentFanState s) (coolSetpoint s) v
           (targetTemperature s) (relativeHumidity s)
           (temperatureDisplayUnits s).
Definition set_targetTemperature (v : number) (s : InternalStates) :=
  mkStates (currentHeatingCoolingState s) (targetHeatingCoolingState s)
           (currentTemperature s) (currentFanState s) (coolSetpoint s)
           (heatSetpoint s) v (relativeHumidity s)
           (temperatureDisplayUnits s).
Definition set_relativeHumidity (v : number) (s : InternalStates) :=
  mkStates (currentHeatingCoolingState s) (targetHeatingCoolingState s)
           (currentTemperature s) (currentFanState s) (coolSetpoint s)
           (heatSetpoint s) (targetTemperature s) v
           (temperatureDisplayUnits s).
Definition set_temperatureDisplayUnits (v : number) (s : InternalStates) :=
  mkStates (currentHeatingCoolingState s) (targetHeatingCoolingState s)
           (currentTemperature s) (currentFanState s) (coolSetpoint s)
           (heatSetpoint s) (targetTemperature s) (relativeHumidity s) v.

(** ** Asynchronous functions as resumptions *)

(** The state of a call of an [async] function when control goes back to
    the event loop: it returned, it threw, or it is suspended at an
    [await] of a transport request.  Each case carries the state reached
    by the synchronous part; a suspended call is resumed with the reply
    and with the state at that later time. *)
Inductive task (A : Type) : Type :=
| Finished (w : World) (a : A)
| Failed (w : World) (e : error)
| Await (w : World) (req : pv_request) (k : reply -> World -> task A).
Arguments Finished {A} w a.
Arguments Failed {A} w e.
Arguments Await {A} w req k.

(** The state at the point where control goes back to the caller. *)
Definition world_of {A : Type} (t : task A) : World :=
  match t with
  | Finished w _ => w
  | Failed w _ => w
  | Await w _ _ => w
  end.

(** Sequencing: the statements after an awaited expression. *)
Fixpoint bind {A B : Type} (t : task A) (f : A -> World -> task B) : task B :=
  match t with
  | Finished w a => f a w
  | Failed w e => Failed w e
  | Await w req k => Await w req (fun r w' => bind (k r w') f)
  end.

(** [try { t } catch (error) { handler }]. *)
Fixpoint try_catch {A : Type} (t : task A)
         (handler : error -> World -> task A) : task A :=
  match t with
  | Finished w a => Finished w a
  | Failed w e => handler e w
  | Await w req k => Await w req (fun r w' => try_catch (k r w') handler)
  end.

(** [await p] where [p] is the outcome of calling a function that returns
    the transport's promise: a synchronous throw propagates, otherwise the
    request is out and the caller is suspended until the reply. *)
Definition await (c : call pv_request) (w : World) : task number :=
  match c with
  | Threw e => Failed w e
  | Returned req =>
      Await (log_event (Request req) w) req
            (fun r w' =>
               match r with
               | Resolved v => Finished w' v
               | Rejected e => Failed w' e
               end)
  end.

(** Run a call to completion against a network [net], with nothing else
    running in between. *)
Fixpoint run {A : Type} (net : pv_request -> reply) (t : task A)
  : World * call A :=
  match t with
  | Finished w a => (w, Returned a)
  | Failed w e => (w, Threw e)
  | Await w req k => run net (k (net req) w)
  end.

(** A promise that nobody awaits (a call whose result is dropped): when it
    ends in a rejection, the rejection is unhandled. *)
Definition settle_floating {A : Type} (net : pv_request -> reply)
           (t : task A) : World :=
  match run net t with
  | (w, Returned _) => w
  | (w, Threw e) => log_event (UnhandledRejection e) w
  end.

(** ** class DzkZone *)

Module DzkZone.

  (** [o[id]["n"]] for a possibly undefined object [o]: reading a property
      of [undefined] throws. *)
Definition object_string (o : option scope) (id : string) : call string :=
    match o with
    | None => Threw TypeError
    | Some sc =>
        match prop sc id with
        | None => Threw TypeError
        | Some ob => Returned (n ob)
        end
    end.

Definition getGlobalPv (s : Statics) (id : string) : call pv_request :=
    match object_string (prop dzk_objects.table "global") id with
    | Threw e => Threw e
    | Returned po => Returned (ReadPresentValue (ipAddress s) po)
    end.

Definition setGlobalPv (s : Statics) (id : string) (val : write_value)
    : call pv_request :=
    match object_string (prop dzk_objects.table "global") id with
    | Threw e => Threw e
    | Returned po => Returned (WritePresentValue (ipAddress s) po val)
    end.

Definition getZonePv (s : Statics) (this : DzkZone) (id : string)
    : call pv_request :=
    match object_string (dzkob this) id with
    | Threw e => Threw e
    | Returned po => Returned (ReadPresentValue (ipAddress s) po)
    end.

Definition setZonePv (s : Statics) (this : DzkZone) (id : string)
             (val : write_value) : call pv_request :=
    match object_string (dzkob this) id with
    | Threw e => Threw e
    | Returned po => Returned (WritePresentValue (ipAddress s) po val)
    end.

  (** The assignment to [lastDemand] in [getCurrentHeatingCoolingState]:
      [Some v] when the guard [hd > 0 || cd > 0] lets it run. *)
Definition lastDemand_assignment (hd cd : number) : option number :=
    if Qgtb hd 0 || Qgtb cd 0 then Some (hd - cd) else None.

  (** The [switch (pred)] of [getCurrentHeatingCoolingState]. *)
Definition state_of_pred (pred : Z) : number :=
    match pred with
    | 0%Z => 0      (* no demand: off *)
    | 1%Z => 1      (* heating demand: heat *)
    | 2%Z => 2      (* cooling demand: cool *)
    | 3%Z => 0      (* both heating and cooling: off *)
    | _ => 0        (* [let rv = 0] *)
    end.

Definition getCurrentHeatingCoolingState (w : World) : task number :=
    bind (await (getZonePv (statics w) (dzkz w) "heating-demand") w)
      (fun hd w =>
    bind (await (getZonePv (statics w) (dzkz w) "cooling-demand") w)
      (fun cd w =>
         let pred : Z :=
           Z.lor (if Qgtb cd 0 then 2 else 0) (if Qgtb hd 0 then 1 else 0) in
         let w :=
           match lastDemand_assignment hd cd with
           | Some v => set_lastDemand v w
           | None => w
           end in
         Finished w (state_of_pred pred))).

Definition getTargetHeatingCoolingState (w : World) : task number :=
    bind (await (getGlobalPv (statics w) "dzk-operation-mode") w)
      (fun prop w =>
         let w := set_dzk_opmode prop w in
         Finished w (dzk_opmode (statics w))).

Definition setTargetHeatingCoolingState (newState : number) (w : World)
    : task number :=
    bind (await (setGlobalPv (statics w) "dzk-operation-mode"
                   (ValueObject BACNET_APPLICATION_TAG_UNSIGNED_INT newState))
                w)
      (fun _ w =>
         let w := set_dzk_opmode newState w in
         Finished w (dzk_opmode (statics w))).

  (** [new DzkZone(log, zno)].  [place] puts the new object where its owner
      keeps it.  The call of [getTargetHeatingCoolingState] is not awaited:
      the constructor returns once that call reaches its first [await], and
      hands back the dropped promise for the event loop to settle. *)
Definition constructor (zno : Z) (place : DzkZone -> World)
    : call (World * option (task number)) :=
    let this :=
      {| zno := zno;
         dzkob := prop dzk_objects.table ("zone" ++ string_of_number zno);
         lastDemand := 0 |} in
    let w := place this in
    if Qeq_bool (dzk_opmode (statics w)) (-1)
    then let p := getTargetHeatingCoolingState w in
         Returned (world_of p, Some p)
    else Returned (w, None).

Definition getCurrentTemperature (s : Statics) (this : DzkZone) :=
    getZonePv s this "room-temperature".

Definition getCurrentFanState (s : Statics) :=
    getGlobalPv s "dzk-global-fan".

Definition getCurrentRelativeHumidity (s : Statics) (this : DzkZone) :=
    getZonePv s this "humidity".

Definition getHeatSetpoint (s : Statics) (this : DzkZone) :=
    getZonePv s this "heat-set-point".

Definition setHeatSetpoint (s : Statics) (this : DzkZone) (newTemp : number) :=
    setZonePv s this "heat-set-point" (Plain newTemp).

Definition getCoolSetpoint (s : Statics) (this : DzkZone) :=
    getZonePv s this "cold-set-point".

Definition setCoolSetpoint (s : Statics) (this : DzkZone) (newTemp : number) :=
    setZonePv s this "cold-set-point" (Plain newTemp).

  (** The [switch (DzkZone.dzk_opmode)] that fills [bac_ob], shared
      verbatim by [getTargetTemperature] and [setTargetTemperature]. *)
Definition bac_ob (opmode lastDemand : number) : string :=
    if Qeq_bool opmode DzkOperationMode.AUTO
       || Qeq_bool opmode DzkOperationMode.DRY
    then (if Qgtb lastDemand 0 then "heat-set-point" else "cold-set-point")
    else if Qeq_bool opmode DzkOperationMode.COOL then "cold-set-point"
    else if Qeq_bool opmode DzkOperationMode.HEAT then "heat-set-point"
    else "".

Definition getTargetTemperature (s : Statics) (this : DzkZone)
    : call pv_request :=
    let bac_ob := bac_ob (dzk_opmode s) (lastDemand this) in
    getZonePv s this bac_ob.

  (** The source computes [bac_ob] and then passes another expression to
      [setZonePv]. *)
Definition setTargetTemperature (s : Statics) (this : DzkZone)
             (newTemp : number) : call pv_request :=
    let bac_ob := bac_ob (dzk_opmode s) (lastDemand this) in
    setZonePv s this
              (if Qgtb (lastDemand this) 0
               then "heat-set-point" else "cold-set-point")
              (Plain newTemp).

Definition to_hap_target_heatcool_state (dzk : number) : number :=
    if Qeq_bool dzk DzkOperationMode.AUTO then TargetHeatingCoolingState.AUTO
    else if Qeq_bool dzk DzkOperationMode.COOL
         then TargetHeatingCoolingState.COOL
    else if Qeq_bool dzk DzkOperationMode.HEAT
         then TargetHeatingCoolingState.HEAT
    else if Qeq_bool dzk DzkOperationMode.DRY
         then TargetHeatingCoolingState.COOL
    else 0.

Definition to_hap_fanstate (dzk : number) : number :=
    if Qeq_bool dzk 0 then CurrentFanState.INACTIVE
    else CurrentFanState.BLOWING_AIR.

Definition from_hap_target_heatcool_state (hap : number) : number :=
    if Qeq_bool hap TargetHeatingCoolingState.HEAT then DzkOperationMode.HEAT
    else if Qeq_bool hap TargetHeatingCoolingState.COOL
         then DzkOperationMode.COOL
    else if Qeq_bool hap TargetHeatingCoolingState.AUTO
         then DzkOperationMode.AUTO
    else if Qeq_bool hap TargetHeatingCoolingState.OFF
         then DzkOperationMode.AUTO
    else DzkOperationMode.AUTO.

End DzkZone.

(** ** class DzkZoneAccessory *)

Module DzkZoneAccessory.

  (** The homebridge callback handed to a handler. *)
Definition callback (err : option error) (value : option number)
             (w : World) : World :=
    log_event (Callback err value) w.

  (** [this.platform.log.error(`${op}.zone${zone}: An error occured: ...`)]. *)
Definition log_error (op : string) (e : error) (w : World) : World :=
    log_event (LogError op (DzkZoneConfig.zone (device w)) e) w.

  (** Assignment to a field of [this.internalStates]. *)
Definition assign (set : number -> InternalStates -> InternalStates)
             (v : number) (w : World) : World :=
    set_internalStates (set v (internalStates w)) w.

  (** [new DzkZoneAccessory(platform, dzkconfig, accessory)], where [device]
      is [accessory.context.device] and [(s, tr)] is the state of the
      process before the call.  The registration of the services and of the
      handlers with homebridge is not modelled. *)
Definition constructor (dzkconfig : DzkConfig.t) (device : DzkZoneConfig.t)
             (s : Statics) (tr : list event)
    : call (World * option (task number)) :=
    let s :=
      if String.eqb (ipAddress s) ""
      then (* only set this once. *)
           mkStatics (DzkConfig.ipAddress dzkconfig) (dzk_opmode s)
      else s in
    DzkZone.constructor (DzkZoneConfig.zone device)
      (fun dzkz => mkWorld s dzkz InternalStates_initial device tr).

Definition getCurrentHeatingCoolingState (w : World) : task unit :=
    let op := "getCurrentHeatingCoolingState" in
    let w :=
      callback None (Some (currentHeatingCoolingState (internalStates w))) w in
    try_catch
      (bind (DzkZone.getCurrentHeatingCoolingState w)
         (fun v w => Finished (assign set_currentHeatingCoolingState v w) tt))
      (fun error w => Finished (log_error op error w) tt).

Definition getTargetHeatingCoolingState (w : World) : task unit :=
    let op := "getTargetHeatingCoolingState" in
    let w :=
      callback None (Some (targetHeatingCoolingState (internalStates w))) w in
    try_catch
      (bind (DzkZone.getTargetHeatingCoolingState w)
         (fun state w =>
            Finished (assign set_targetHeatingCoolingState
                        (DzkZone.to_hap_target_heatcool_state state) w) tt))
      (fun error w => Finished (log_error op error w) tt).

Definition setTargetHeatingCoolingState (value : number) (w : World)
    : task unit :=
    let op := "setTargetHeatingCoolingState" in
    let w := callback None None w in
    try_catch
      (bind (DzkZone.setTargetHeatingCoolingState
               (DzkZone.from_hap_target_heatcool_state value) w)
         (fun state w =>
            Finished (assign set_targetHeatingCoolingState
                        (DzkZone.to_hap_target_heatcool_state state) w) tt))
      (fun error w => Finished (log_error op error w) tt).

Definition getCurrentTemperature (w : World) : task unit :=
    let op := "getCurrentTemperature" in
    let w := callback None (Some (currentTemperature (internalStates w))) w in
    try_catch
      (bind (await (DzkZone.getCurrentTemperature (statics w) (dzkz w)) w)
         (fun ctProp w =>
            Finished (assign set_currentTemperature (f2c ctProp) w) tt))
      (fun error w => Finished (log_error op error w) tt).

Definition getCurrentFanState (w : World) : task unit :=
    let op := "getCurrentFanState" in
    let w := callback None (Some (currentFanState (internalStates w))) w in
    try_catch
      (bind (await (DzkZone.getCurrentFanState (statics w)) w)
         (fun ctProp w =>
            Finished (assign set_currentFanState
                        (DzkZone.to_hap_fanstate ctProp) w) tt))
      (fun error w => Finished (log_error op error w) tt).

Definition getCurrentRelativeHumidity (w : World) : task unit :=
    let op := "getCurrentRelativeHumidity" in
    let w := callback None (Some (relativeHumidity (internalStates w))) w in
    try_catch
      (bind (await (DzkZone.getCurrentRelativeHumidity (statics w) (dzkz w)) w)
         (fun ctProp w => Finished (assign set_relativeHumidity ctProp w) tt))
      (fun error w => Finished (log_error op error w) tt).

Definition getTargetTemperature (w : World) : task unit :=
    let op := "getTargetTemperature" in
    let w := callback None (Some (targetTemperature (internalStates w))) w in
    try_catch
      (bind (await (DzkZone.getTargetTemperature (statics w) (dzkz w)) w)
         (fun ctProp w =>
            Finished (assign set_targetTemperature (f2c ctProp) w) tt))
      (fun error w => Finished (log_error op error w) tt).

Definition setTargetTemperature (value : number) (w : World) : task unit :=
    let op := "setTargetTemperature" in
    let w := callback None None w in
    try_catch
      (bind (await (DzkZone.setTargetTemperature (statics w) (dzkz w)
                      (c2f value)) w)
         (fun _ w => Finished w tt))
      (fun error w => Finished (log_error op error w) tt).

Definition getHeatingThresholdTemperature (w : World) : task unit :=
    let op := "getHeatingThresholdTemperature" in
    let w := callback None (Some (heatSetpoint (internalStates w))) w in
    try_catch
      (bind (await (DzkZone.getHeatSetpoint (statics w) (dzkz w)) w)
         (fun ctProp w => Finished (assign set_heatSetpoint (f2c ctProp) w) tt))
      (fun error w => Finished (log_error op error w) tt).

Definition setHeatingThresholdTemperature (value : number) (w : World)
    : task unit :=
    let op := "setHeatingThresholdTemperature" in
    let w := callback None None w in
    try_catch
      (bind (await (DzkZone.setHeatSetpoint (statics w) (dzkz w)
                      (c2f value)) w)
         (fun _ w => Finished w tt))
      (fun error w => Finished (log_error op error w) tt).

Definition getCoolingThresholdTemperature (w : World) : task unit :=
    let op := "getCoolingThresholdTemperature" in
    let w := callback None (Some (coolSetpoint (internalStates w))) w in
    try_catch
      (bind (await (DzkZone.getCoolSetpoint (statics w) (dzkz w)) w)
         (fun ctProp w => Finished (assign set_coolSetpoint (f2c ctProp) w) tt))
      (fun error w => Finished (log_error op error w) tt).

Definition setCoolingThresholdTemperature (value : number) (w : World)
    : task unit :=
    let op := "setCoolingThresholdTemperature" in
    let w := callback None None w in
    try_catch
      (bind (await (DzkZone.setCoolSetpoint (statics w) (dzkz w)
                      (c2f value)) w)
         (fun _ w => Finished w tt))
      (fun error w => Finished (log_error op error w) tt).

  (** The two display-unit handlers touch the cache only. *)
Definition getTemperatureDisplayUnits (w : World) : World :=
    callback None (Some (temperatureDisplayUnits (internalStates w))) w.

Definition setTemperatureDisplayUnits (value : number) (w : World) : World :=
    let w := assign set_temperatureDisplayUnits value w in
    callback None None w.

End DzkZoneAccessory.

(** The loop of [discoverDevices] over the configured zones: the
    constructors run one after the other, with no [await] in between, each
    on the statics and the trace left by the one before.  The result is the
    statics and trace at the end and the accessories built, each with the
    promise its constructor dropped. *)
Fixpoint construct_all (cs : list (DzkConfig.t * DzkZoneConfig.t))
         (s : Statics) (tr : list event)
  : Statics * list event * list (World * option (task number)) :=
  match cs with
  | [] => (s, tr, [])
  | (dzkconfig, device) :: rest =>
      match DzkZoneAccessory.constructor dzkconfig device s tr with
      | Threw _ => (s, tr, [])
      | Returned (w, p) =>
          let '(s', tr', ws) := construct_all rest (statics w) (trace w) in
          (s', tr', (w, p) :: ws)
      end
  end.

(** How many constructions of a run of [construct_all] execute the
    assignment [DzkZone.ipAddress = dzkconfig["ipAddress"]], that is, find
    the guard [DzkZone.ipAddress == ""] true. *)
Fixpoint address_assignments (cs : list (DzkConfig.t * DzkZoneConfig.t))
         (s : Statics) (tr : list event) : nat :=
  match cs with
  | [] => 0
  | (dzkconfig, device) :: rest =>
      match DzkZoneAccessory.constructor dzkconfig device s tr with
      | Threw _ => 0
      | Returned (w, _) =>
          (if String.eqb (ipAddress s) "" then 1 else 0)
          + address_assignments rest (statics w) (trace w)
      end
  end%nat.

(** ** The handlers behind the stale-read bridge *)

(** The accessory getters that are backed by a network read. *)
Inductive getter : Type :=
| GetCurrentHeatingCoolingState
| GetTargetHeatingCoolingState
| GetCurrentTemperature
| GetCurrentFanState
| GetCurrentRelativeHumidity
| GetTargetTemperature
| GetHeatingThresholdTemperature
| GetCoolingThresholdTemperature.

Definition handler (g : getter) : World -> task unit :=
  match g with
  | GetCurrentHeatingCoolingState =>
      DzkZoneAccessory.getCurrentHeatingCoolingState
  | GetTargetHeatingCoolingState =>
      DzkZoneAccessory.getTargetHeatingCoolingState
  | GetCurrentTemperature => DzkZoneAccessory.getCurrentTemperature
  | GetCurrentFanState => DzkZoneAccessory.getCurrentFanState
  | GetCurrentRelativeHumidity => DzkZoneAccessory.getCurrentRelativeHumidity
  | GetTargetTemperature => DzkZoneAccessory.getTargetTemperature
  | GetHeatingThresholdTemperature =>
      DzkZoneAccessory.getHeatingThresholdTemperature
  | GetCoolingThresholdTemperature =>
      DzkZoneAccessory.getCoolingThresholdTemperature
  end.

(** The field of [internalStates] a getter serves. *)
Definition cached (g : getter) : InternalStates -> number :=
  match g with
  | GetCurrentHeatingCoolingState => currentHeatingCoolingState
  | GetTargetHeatingCoolingState => targetHeatingCoolingState
  | GetCurrentTemperature => currentTemperature
  | GetCurrentFanState => currentFanState
  | GetCurrentRelativeHumidity => relativeHumidity
  | GetTargetTemperature => targetTemperature
  | GetHeatingThresholdTemperature => heatSetpoint
  | GetCoolingThresholdTemperature => coolSetpoint
  end.

Definition op_name (g : getter) : string :=
  match g with
  | GetCurrentHeatingCoolingState => "getCurrentHeatingCoolingState"
  | GetTargetHeatingCoolingState => "getTargetHeatingCoolingState"
  | GetCurrentTemperature => "getCurrentTemperature"
  | GetCurrentFanState => "getCurrentFanState"
  | GetCurrentRelativeHumidity => "getCurrentRelativeHumidity"
  | GetTargetTemperature => "getTargetTemperature"
  | GetHeatingThresholdTemperature => "getHeatingThresholdTemperature"
  | GetCoolingThresholdTemperature => "getCoolingThresholdTemperature"
  end.

(** The background refresh of a getter: the awaited controller call
    followed by the conversion that the handler applies to its result. *)
Definition refresh (g : getter) (w : World) : task number :=
  match g with
  | GetCurrentHeatingCoolingState => DzkZone.getCurrentHeatingCoolingState w
  | GetTargetHeatingCoolingState =>
      bind (DzkZone.getTargetHeatingCoolingState w)
           (fun state w =>
              Finished w (DzkZone.to_hap_target_heatcool_state state))
  | GetCurrentTemperature =>
      bind (await (DzkZone.getCurrentTemperature (statics w) (dzkz w)) w)
           (fun v w => Finished w (f2c v))
  | GetCurrentFanState =>
      bind (await (DzkZone.getCurrentFanState (statics w)) w)
           (fun v w => Finished w (DzkZone.to_hap_fanstate v))
  | GetCurrentRelativeHumidity =>
      await (DzkZone.getCurrentRelativeHumidity (statics w) (dzkz w)) w
  | GetTargetTemperature =>
      bind (await (DzkZone.getTargetTemperature (statics w) (dzkz w)) w)
           (fun v w => Finished w (f2c v))
  | GetHeatingThresholdTemperature =>
      bind (await (DzkZone.getHeatSetpoint (statics w) (dzkz w)) w)
           (fun v w => Finished w (f2c v))
  | GetCoolingThresholdTemperature =>
      bind (await (DzkZone.getCoolSetpoint (statics w) (dzkz w)) w)
           (fun v w => Finished w (f2c v))
  end.

(** An event that reaches the homebridge callback. *)
Definition is_callback (e : event) : bool :=
  match e with Callback _ _ => true | _ => false end.

(** An event that reaches the error log. *)
Definition is_log_error (e : event) : bool :=
  match e with LogError _ _ _ => true | _ => false end.

(** The assignment a getter makes to its field of the cache. *)
Definition store (g : getter) : number -> InternalStates -> InternalStates :=
  match g with
  | GetCurrentHeatingCoolingState => set_currentHeatingCoolingState
  | GetTargetHeatingCoolingState => set_targetHeatingCoolingState
  | GetCurrentTemperature => set_currentTemperature
  | GetCurrentFanState => set_currentFanState
  | GetCurrentRelativeHumidity => set_relativeHumidity
  | GetTargetTemperature => set_targetTemperature
  | GetHeatingThresholdTemperature => set_heatSetpoint
  | GetCoolingThresholdTemperature => set_coolSetpoint
  end.

(** [quiet w w']: from [w] to [w'] the cache, the configuration and the
    device address are untouched, and the trace only grew by transport
    requests. *)
Definition quiet (w w' : World) : Prop :=
  internalStates w' = internalStates w /\
  device w' = device w /\
  ipAddress (statics w') = ipAddress (statics w) /\
  exists rest,
    trace w' = (trace w ++ rest)%list /\
    Forall (fun ev => is_callback ev = false /\ is_log_error ev = false) rest.

(** A call is quiet when its run leads to a quiet state. *)
Definition quiet_task {A : Type} (net : pv_request -> reply) (w0 : World)
           (t : task A) : Prop :=
  quiet w0 (fst (run net t)).

(** The per-zone scope that ["zone" + zno] selects in the directory:
    the six literals for 1..6 and [undefined] for every other integer. *)
Definition zone_scope (zno : Z) : option scope :=
  match zno with
  | 1%Z => Some dzk_objects.zone1
  | 2%Z => Some dzk_objects.zone2
  | 3%Z => Some dzk_objects.zone3
  | 4%Z => Some dzk_objects.zone4
  | 5%Z => Some dzk_objects.zone5
  | 6%Z => Some dzk_objects.zone6
  | _ => None
  end.

(** ** Concrete inputs *)

(** Zone 1 of a unit at 192.168.1.50, mode AUTO, nothing observed yet. *)
Definition den : World :=
  mkWorld (mkStatics "192.168.1.50" DzkOperationMode.AUTO)
          (mkZone 1 (prop dzk_objects.table ("zone" ++ string_of_number 1)) 0)
          InternalStates_initial (DzkZoneConfig.mk "den" 1) [].

(** A unit that reports a heating demand of 15 (AV:16 in zone 1) and 0 for
    everything else. *)
Definition heating_unit (r : pv_request) : reply :=
  match r with
  | ReadPresentValue _ o => if String.eqb o "AV:16" then Resolved 15 else Resolved 0
  | WritePresentValue _ _ _ => Resolved 0
  end.

(** ** Sessions of an accessory *)

(** What homebridge can ask of an accessory: the handlers registered by the
    constructor. *)
Inductive operation : Type :=
| Get (g : getter)
| SetTargetHeatingCoolingState (value : number)
| SetTargetTemperature (value : number)
| SetHeatingThresholdTemperature (value : number)
| SetCoolingThresholdTemperature (value : number)
| GetTemperatureDisplayUnits
| SetTemperatureDisplayUnits (value : number).

(** One request of homebridge, served to completion against the network
    [net] before anything else runs. *)
Definition perform (net : pv_request -> reply) (o : operation) (w : World)
  : World :=
  match o with
  | Get g => fst (run net (handler g w))
  | SetTargetHeatingCoolingState value =>
      fst (run net (DzkZoneAccessory.setTargetHeatingCoolingState value w))
  | SetTargetTemperature value =>
      fst (run net (DzkZoneAccessory.setTargetTemperature value w))
  | SetHeatingThresholdTemperature value =>
      fst (run net (DzkZoneAccessory.setHeatingThresholdTemperature value w))
  | SetCoolingThresholdTemperature value =>
      fst (run net (DzkZoneAccessory.setCoolingThresholdTemperature value w))
  | GetTemperatureDisplayUnits =>
      DzkZoneAccessory.getTemperatureDisplayUnits w
  | SetTemperatureDisplayUnits value =>
      DzkZoneAccessory.setTemperatureDisplayUnits value w
  end.

(** A session: requests served one after the other, each against the
    network as it behaves at that time. *)
Fixpoint perform_all (session : list ((pv_request -> reply) * operation))
         (w : World) : World :=
  match session with
  | [] => w
  | (net, o) :: rest => perform_all rest (perform net o w)
  end.

(** The operations that assign [DzkZone.dzk_opmode]. *)
Definition assigns_opmode (o : operation) : bool :=
  match o with
  | Get GetTargetHeatingCoolingState => true
  | SetTargetHeatingCoolingState _ => true
  | _ => false
  end.

(** The operations that assign the field of the cache served by [g]. *)
Definition assigns_cache (g : getter) (o : operation) : bool :=
  match o, g with
  | Get GetCurrentHeatingCoolingState, GetCurrentHeatingCoolingState => true
  | Get GetTargetHeatingCoolingState, GetTargetHeatingCoolingState => true
  | Get GetCurrentTemperature, GetCurrentTemperature => true
  | Get GetCurrentFanState, GetCurrentFanState => true
  | Get GetCurrentRelativeHumidity, GetCurrentRelativeHumidity => true
  | Get GetTargetTemperature, GetTargetTemperature => true
  | Get GetHeatingThresholdTemperature, GetHeatingThresholdTemperature => true
  | Get GetCoolingThresholdTemperature, GetCoolingThresholdTemperature => true
  | SetTargetHeatingCoolingState _, GetTargetHeatingCoolingState => true
  | _, _ => false
  end.

Definition is_set_display_units (o : operation) : bool :=
  match o with SetTemperatureDisplayUnits _ => true | _ => false end.

Definition is_request (e : event) : bool :=
  match e with Request _ => true | _ => false end.

Definition is_unhandled (e : event) : bool :=
  match e with UnhandledRejection _ => true | _ => false end.

(** The callbacks of a trace that report no error. *)
Definition is_plain_callback (e : event) : bool :=
  match e with Callback None _ => true | _ => false end.

(** The state a write handler leaves when its controller call returned the
    request [req]: the callback acknowledged, the request out, and the error
    logged under [op] if the network rejected it.  Nothing else is
    assigned. *)
Definition write_outcome (net : pv_request -> reply) (op : string)
           (req : pv_request) (w : World) : World :=
  let w1 := log_event (Request req) (DzkZoneAccessory.callback None None w) in
  match net req with
  | Resolved _ => w1
  | Rejected e => DzkZoneAccessory.log_error op e w1
  end.

(** The operations that go through the zone's scope of the directory. *)
Definition zone_scoped (o : operation) : bool :=
  match o with
  | Get GetTargetHeatingCoolingState => false
  | Get GetCurrentFanState => false
  | Get _ => true
  | SetTargetTemperature _ => true
  | SetHeatingThresholdTemperature _ => true
  | SetCoolingThresholdTemperature _ => true
  | _ => false
  end.

(** An accessory configured for zone 7, which the directory does not
    have, as its constructor leaves it once the mode is known. *)
Definition attic : World :=
  mkWorld (mkStatics "192.168.1.50" DzkOperationMode.AUTO)
          (mkZone 7 (prop dzk_objects.table ("zone" ++ string_of_number 7)) 0)
          InternalStates_initial (DzkZoneConfig.mk "attic" 7) [].

(** A unit that answers nothing. *)
Definition silent_unit (r : pv_request) : reply :=
  Rejected (TransportError "timeout").

(** ** The directory as a list of addresses *)

(** The entries of a scope as [(scope number, key, object string)]; the
    global scope is numbered 0. *)
Definition scope_entries (k : Z) (sc : scope) : list (Z * string * string) :=
  map (fun p => (k, fst p, n (snd p))) sc.

Definition zone_entries (k : Z) : list (Z * string * string) :=
  match zone_scope k with
  | Some sc => scope_entries k sc
  | None => []
  end.

Definition directory_entries : list (Z * string * string) :=
  (scope_entries 0 dzk_objects.global
     ++ flat_map zone_entries [1; 2; 3; 4; 5; 6]%Z)%list.

(** No string occurs twice in a list. *)
Fixpoint distinct (l : list string) : bool :=
  match l with
  | [] => true
  | x :: rest => negb (existsb (String.eqb x) rest) && distinct rest
  end.

(** A mode fetch as it appears in the trace. *)
Definition is_mode_fetch (e : event) : bool :=
  match e with
  | Request (ReadPresentValue _ o) => String.eqb o "MO:0"
  | _ => false
  end.

(** ** The platform's discovery of the configured zones *)



Section Platform.

  (** [api.hap.uuid.generate], a function of homebridge. *)
Variable generate : string -> string.







End Platform.

(** A unit that answers every request with the same number. *)
Definition steady_unit (v : number) (r : pv_request) : reply := Resolved v.

(** A short session on zone 1: a write of the heating threshold, then a read
    of the humidity. *)
Definition evening : list ((pv_request -> reply) * operation) :=
  [ (heating_unit, SetHeatingThresholdTemperature 21);
    (silent_unit, Get GetCurrentRelativeHumidity) ].

(** Zone 1 as a refresh with a heating demand of 15 left it. *)
Definition den_heated : World :=
  mkWorld (statics den)
          (mkZone (zno (dzkz den)) (dzkob (dzkz den)) 15)
          (internalStates den) (device den) (trace den).

(** A unit whose heating demand for zone 1 (AV:16) reads -4, with 0 for
    everything else. *)
Definition faulty_unit (r : pv_request) : reply :=
  match r with
  | ReadPresentValue _ o =>
      if String.eqb o "AV:16" then Resolved (-4) else Resolved 0
  | WritePresentValue _ _ _ => Resolved 0
  end.

(** One request of homebridge as the event loop sees it: homebridge calls
    the handler and drops the promise an [async] handler returns, so a
    handler that ended in a rejection would leave it unhandled.  The two
    display-unit handlers are not [async]. *)
Definition serve (net : pv_request -> reply) (o : operation) (w : World)
  : World :=
  match o with
  | Get g => settle_floating net (handler g w)
  | SetTargetHeatingCoolingState value =>
      settle_floating
        net (DzkZoneAccessory.setTargetHeatingCoolingState value w)
  | SetTargetTemperature value =>
      settle_floating net (DzkZoneAccessory.setTargetTemperature value w)
  | SetHeatingThresholdTemperature value =>
      settle_floating
        net (DzkZoneAccessory.setHeatingThresholdTemperature value w)
  | SetCoolingThresholdTemperature value =>
      settle_floating
        net (DzkZoneAccessory.setCoolingThresholdTemperature value w)
  | GetTemperatureDisplayUnits =>
      DzkZoneAccessory.getTemperatureDisplayUnits w
  | SetTemperatureDisplayUnits value =>
      DzkZoneAccessory.setTemperatureDisplayUnits value w
  end.

Fixpoint serve_all (session : list ((pv_request -> reply) * operation))
         (w : World) : World :=
  match session with
  | [] => w
  | (net, o) :: rest => serve_all rest (serve net o w)
  end.

(** * Properties *)

(** ** Numbers and property names *)

Lemma Qgtb_true_iff (a b : number) : Qgtb a b = true <-> b < a.
Proof.
  unfold Qgtb. rewrite negb_true_iff. split; intro H.
  - apply Qnot_le_lt. intro Hle. apply Qle_bool_iff in Hle. congruence.
  - destruct (Qle_bool a b) eqn:E; [|reflexivity].
    apply Qle_bool_iff in E. exfalso. apply (Qlt_not_le _ _ H E).
Qed.

Lemma Qgtb_false_iff (a b : number) : Qgtb a b = false <-> a <= b.
Proof.
  unfold Qgtb. rewrite negb_false_iff. apply Qle_bool_iff.
Qed.

Lemma Qeq_bool_false_iff (a b : number) : Qeq_bool a b = false <-> ~ a == b.
Proof.
  split; intro H.
  - apply Qeq_bool_neq, H.
  - destruct (Qeq_bool a b) eqn:E; [|reflexivity].
    apply Qeq_bool_iff in E. contradiction.
Qed.

(** The decimal rendering of an integer determines the integer. *)
Lemma string_of_number_inj (a b : Z) :
  string_of_number a = string_of_number b -> a = b.
Proof.
  unfold string_of_number. intro H.
  apply to_int_inj.
  assert (E : Some (Z.to_int a) = Some (Z.to_int b)).
  { rewrite <- (NilEmpty.isi (Z.to_int a)), <- (NilEmpty.isi (Z.to_int b)).
    now rewrite H. }
  now inversion E.
Qed.

Lemma zone_key_eqb (k : string) (zno z : Z) :
  k = "zone" ++ string_of_number z ->
  String.eqb k ("zone" ++ string_of_number zno) = Z.eqb z zno.
Proof.
  intros ->. destruct (Z.eqb_spec z zno) as [->|Hne].
  - apply String.eqb_refl.
  - apply String.eqb_neq. intro H. simpl in H.
    injection H as H. apply string_of_number_inj in H. contradiction.
Qed.

Lemma directory_zone_lookup (zno : Z) :
  prop dzk_objects.table ("zone" ++ string_of_number zno) = zone_scope zno.
Proof.
  unfold dzk_objects.table, prop.
  replace (String.eqb "global" ("zone" ++ string_of_number zno)) with false
    by reflexivity.
  rewrite (zone_key_eqb "zone1" zno 1), (zone_key_eqb "zone2" zno 2),
    (zone_key_eqb "zone3" zno 3), (zone_key_eqb "zone4" zno 4),
    (zone_key_eqb "zone5" zno 5), (zone_key_eqb "zone6" zno 6)
    by reflexivity.
  destruct (Z.eqb_spec 1 zno) as [<-|H1]; [reflexivity|].
  destruct (Z.eqb_spec 2 zno) as [<-|H2]; [reflexivity|].
  destruct (Z.eqb_spec 3 zno) as [<-|H3]; [reflexivity|].
  destruct (Z.eqb_spec 4 zno) as [<-|H4]; [reflexivity|].
  destruct (Z.eqb_spec 5 zno) as [<-|H5]; [reflexivity|].
  destruct (Z.eqb_spec 6 zno) as [<-|H6]; [reflexivity|].
  destruct zno as [|p|p]; try reflexivity.
  do 3 (destruct p as [p|p|]; try reflexivity; try congruence).
Qed.

Lemma zone_scope_in_range (zno : Z) :
  (1 <= zno <= 6)%Z -> exists sc, zone_scope zno = Some sc.
Proof.
  intro H.
  assert (C : (zno = 1 \/ zno = 2 \/ zno = 3 \/ zno = 4 \/ zno = 5 \/ zno = 6)%Z)
    by lia.
  destruct C as [->|[->|[->|[->|[->| ->]]]]]; eexists; reflexivity.
Qed.

Lemma zone_scope_out_of_range (zno : Z) :
  ~ (1 <= zno <= 6)%Z -> zone_scope zno = None.
Proof.
  intro H. destruct zno as [|p|p]; try reflexivity.
  repeat (match goal with q : positive |- _ => destruct q end;
          try reflexivity; try (exfalso; lia)).
Qed.

Lemma zone_scope_defined (zno : Z) (sc : scope) :
  zone_scope zno = Some sc -> (1 <= zno <= 6)%Z.
Proof.
  intro H. destruct (Z_le_dec 1 zno) as [H1|H1];
    [destruct (Z_le_dec zno 6) as [H6|H6]; [lia|]|];
    rewrite zone_scope_out_of_range in H by lia; discriminate.
Qed.

(** No scope of a zone has the empty string among its keys, or lacks one
    of the keys the controller reads and writes. *)
Lemma zone_scope_keys (zno : Z) (sc : scope) :
  zone_scope zno = Some sc ->
  prop sc "" = None /\
  (exists ob, prop sc "heat-set-point" = Some ob) /\
  (exists ob, prop sc "cold-set-point" = Some ob) /\
  (exists ob, prop sc "room-temperature" = Some ob) /\
  (exists ob, prop sc "humidity" = Some ob) /\
  (exists ob, prop sc "heating-demand" = Some ob) /\
  (exists ob, prop sc "cooling-demand" = Some ob).
Proof.
  intro H. pose proof (zone_scope_defined _ _ H) as R.
  assert (C : (zno = 1 \/ zno = 2 \/ zno = 3 \/ zno = 4 \/ zno = 5 \/ zno = 6)%Z)
    by lia.
  destruct C as [->|[->|[->|[->|[->| ->]]]]];
    injection H as <-; repeat split; try reflexivity; eexists; reflexivity.
Qed.

(** ** Target-mode translation *)

(** C5.  Both translation functions are total: whatever number they are
    given, [to_hap_target_heatcool_state] answers one of the four HAP target
    states and [from_hap_target_heatcool_state] one of the device modes.
    Translating a device mode to HAP and back gives AUTO, COOL and HEAT
    back unchanged, and turns DRY into COOL. *)
Theorem target_mode_translation_roundtrip :
  (forall dzk : number,
      In (DzkZone.to_hap_target_heatcool_state dzk)
         [TargetHeatingCoolingState.OFF; TargetHeatingCoolingState.HEAT;
          TargetHeatingCoolingState.COOL; TargetHeatingCoolingState.AUTO]) /\
  (forall hap : number,
      In (DzkZone.from_hap_target_heatcool_state hap)
         [DzkOperationMode.AUTO; DzkOperationMode.COOL;
          DzkOperationMode.HEAT]) /\
  DzkZone.from_hap_target_heatcool_state
    (DzkZone.to_hap_target_heatcool_state DzkOperationMode.AUTO)
  = DzkOperationMode.AUTO /\
  DzkZone.from_hap_target_heatcool_state
    (DzkZone.to_hap_target_heatcool_state DzkOperationMode.COOL)
  = DzkOperationMode.COOL /\
  DzkZone.from_hap_target_heatcool_state
    (DzkZone.to_hap_target_heatcool_state DzkOperationMode.HEAT)
  = DzkOperationMode.HEAT /\
  DzkZone.from_hap_target_heatcool_state
    (DzkZone.to_hap_target_heatcool_state DzkOperationMode.DRY)
  = DzkOperationMode.COOL /\
  ~ DzkZone.from_hap_target_heatcool_state
      (DzkZone.to_hap_target_heatcool_state DzkOperationMode.DRY)
    == DzkOperationMode.DRY.
Proof.
  repeat split; try reflexivity.
  - intro dzk. unfold DzkZone.to_hap_target_heatcool_state.
    repeat match goal with
           | |- context [Qeq_bool ?a ?b] => destruct (Qeq_bool a b)
           end; simpl; tauto.
  - intro hap. unfold DzkZone.from_hap_target_heatcool_state.
    repeat match goal with
           | |- context [Qeq_bool ?a ?b] => destruct (Qeq_bool a b)
           end; simpl; tauto.
  - intro H. vm_compute in H. discriminate.
Qed.

(** The translation respects equality of numbers, so the round trip holds
    for every representation of a mode. *)
Lemma to_hap_from_hap_roundtrip_eq (m : number) :
  (m == DzkOperationMode.AUTO \/ m == DzkOperationMode.COOL
   \/ m == DzkOperationMode.HEAT ->
   DzkZone.from_hap_target_heatcool_state
     (DzkZone.to_hap_target_heatcool_state m) == m) /\
  (m == DzkOperationMode.DRY ->
   DzkZone.from_hap_target_heatcool_state
     (DzkZone.to_hap_target_heatcool_state m) == DzkOperationMode.COOL).
Proof.
  split.
  - intros [H|[H|H]]; unfold DzkZone.to_hap_target_heatcool_state;
      rewrite (Qeqb_comp _ _ H _ _ (Qeq_refl _)),
        ?(Qeqb_comp _ _ H _ _ (Qeq_refl _));
      simpl; rewrite H; reflexivity.
  - intro H. unfold DzkZone.to_hap_target_heatcool_state.
    rewrite !(Qeqb_comp _ _ H _ _ (Qeq_refl _)). reflexivity.
Qed.

(** ** Setpoint arbitration *)

Lemma bac_ob_HEAT (m ld : number) :
  m == DzkOperationMode.HEAT -> DzkZone.bac_ob m ld = "heat-set-point".
Proof.
  intro H. unfold DzkZone.bac_ob.
  rewrite !(Qeqb_comp _ _ H _ _ (Qeq_refl _)). reflexivity.
Qed.

Lemma bac_ob_COOL (m ld : number) :
  m == DzkOperationMode.COOL -> DzkZone.bac_ob m ld = "cold-set-point".
Proof.
  intro H. unfold DzkZone.bac_ob.
  rewrite !(Qeqb_comp _ _ H _ _ (Qeq_refl _)). reflexivity.
Qed.

Lemma bac_ob_AUTO_DRY (m ld : number) :
  m == DzkOperationMode.AUTO \/ m == DzkOperationMode.DRY ->
  DzkZone.bac_ob m ld =
  if Qgtb ld 0 then "heat-set-point" else "cold-set-point".
Proof.
  intros [H|H]; unfold DzkZone.bac_ob;
    rewrite !(Qeqb_comp _ _ H _ _ (Qeq_refl _)); reflexivity.
Qed.

Lemma bac_ob_other (m ld : number) :
  ~ m == DzkOperationMode.AUTO -> ~ m == DzkOperationMode.COOL ->
  ~ m == DzkOperationMode.HEAT -> ~ m == DzkOperationMode.DRY ->
  DzkZone.bac_ob m ld = "".
Proof.
  intros HA HC HH HD. unfold DzkZone.bac_ob.
  apply Qeq_bool_false_iff in HA, HC, HH, HD.
  now rewrite HA, HC, HH, HD.
Qed.

(** C2.  In a zone built for a zone number in 1..6, [getTargetTemperature]
    issues a read of the zone's heat-set-point object when the global mode
    is HEAT and of its cold-set-point object when the mode is COOL, whatever
    [lastDemand] is; when the mode is AUTO or DRY it reads the heat
    set point if [lastDemand > 0] and the cold set point if
    [lastDemand <= 0], which includes the initial [lastDemand = 0]. *)
Theorem getTargetTemperature_arbitration
        (s : Statics) (this : DzkZone) (k : Z) :
  (1 <= k <= 6)%Z ->
  dzkob this = prop dzk_objects.table ("zone" ++ string_of_number k) ->
  exists sc heat cold,
    dzkob this = Some sc /\
    prop sc "heat-set-point" = Some heat /\
    prop sc "cold-set-point" = Some cold /\
    let read_heat := Returned (ReadPresentValue (ipAddress s) (n heat)) in
    let read_cold := Returned (ReadPresentValue (ipAddress s) (n cold)) in
    (dzk_opmode s == DzkOperationMode.HEAT ->
     DzkZone.getTargetTemperature s this = read_heat) /\
    (dzk_opmode s == DzkOperationMode.COOL ->
     DzkZone.getTargetTemperature s this = read_cold) /\
    (dzk_opmode s == DzkOperationMode.AUTO
     \/ dzk_opmode s == DzkOperationMode.DRY ->
     (0 < lastDemand this ->
      DzkZone.getTargetTemperature s this = read_heat) /\
     (lastDemand this <= 0 ->
      DzkZone.getTargetTemperature s this = read_cold)).
Proof.
  intros Hk Hob. rewrite directory_zone_lookup in Hob.
  destruct (zone_scope_in_range k Hk) as [sc Hsc].
  destruct (zone_scope_keys k sc Hsc) as (_ & [heat Hh] & [cold Hc] & _).
  exists sc, heat, cold. rewrite Hob. repeat split; try assumption.
  - intro H. unfold DzkZone.getTargetTemperature.
    rewrite (bac_ob_HEAT _ _ H). unfold DzkZone.getZonePv, DzkZone.object_string.
    now rewrite Hob, Hsc, Hh.
  - intro H. unfold DzkZone.getTargetTemperature.
    rewrite (bac_ob_COOL _ _ H). unfold DzkZone.getZonePv, DzkZone.object_string.
    now rewrite Hob, Hsc, Hc.
  - intro Hpos. unfold DzkZone.getTargetTemperature.
    rewrite (bac_ob_AUTO_DRY _ _ H).
    apply Qgtb_true_iff in Hpos. rewrite Hpos.
    unfold DzkZone.getZonePv, DzkZone.object_string.
    now rewrite Hob, Hsc, Hh.
  - intro Hle. unfold DzkZone.getTargetTemperature.
    rewrite (bac_ob_AUTO_DRY _ _ H).
    apply Qgtb_false_iff in Hle. rewrite Hle.
    unfold DzkZone.getZonePv, DzkZone.object_string.
    now rewrite Hob, Hsc, Hc.
Qed.

(** [setTargetTemperature] chooses its object from [lastDemand] alone: the
    global mode plays no part in the write. *)
Lemma setTargetTemperature_object (s : Statics) (this : DzkZone)
      (newTemp : number) :
  DzkZone.setTargetTemperature s this newTemp
  = DzkZone.setZonePv s this
      (if Qgtb (lastDemand this) 0 then "heat-set-point" else "cold-set-point")
      (Plain newTemp).
Proof. reflexivity. Qed.

(** C3.  The code at the failing input: zone 1, global mode HEAT,
    [lastDemand = 0].  [getTargetTemperature] reads the heat set point
    (AV:1) while [setTargetTemperature] writes the cold set point (AV:2);
    with global mode COOL and [lastDemand = 5] the reader takes the cold
    set point and the writer the heat set point. *)
Theorem setTargetTemperature_differs_from_getter :
  let zone1 := mkZone 1 (prop dzk_objects.table "zone1") 0 in
  let heating := mkStatics "192.168.1.50" DzkOperationMode.HEAT in
  let zone1' := mkZone 1 (prop dzk_objects.table "zone1") 5 in
  let cooling := mkStatics "192.168.1.50" DzkOperationMode.COOL in
  DzkZone.getTargetTemperature heating zone1
  = Returned (ReadPresentValue "192.168.1.50" "AV:1") /\
  DzkZone.setTargetTemperature heating zone1 70
  = Returned (WritePresentValue "192.168.1.50" "AV:2" (Plain 70)) /\
  DzkZone.getTargetTemperature cooling zone1'
  = Returned (ReadPresentValue "192.168.1.50" "AV:2") /\
  DzkZone.setTargetTemperature cooling zone1' 70
  = Returned (WritePresentValue "192.168.1.50" "AV:1" (Plain 70)).
Proof. repeat split. Qed.


(** ** The directory's access mode *)

(** C9 as stated fails: in zone 1 a write to the read-only
    ["room-temperature"] entry (rw = "R") does not throw; it returns the
    transport's write request for AI:0. *)
Lemma setZonePv_read_only_entry_is_written :
  let zone1 := mkZone 1 (prop dzk_objects.table "zone1") 0 in
  let s := mkStatics "192.168.1.50" DzkOperationMode.AUTO in
  option_map rw (prop dzk_objects.zone1 "room-temperature") = Some "R" /\
  DzkZone.setZonePv s zone1 "room-temperature" (Plain 70)
  = Returned (WritePresentValue "192.168.1.50" "AI:0" (Plain 70)) /\
  forall e, DzkZone.setZonePv s zone1 "room-temperature" (Plain 70) <> Threw e.
Proof. repeat split. intros e H. discriminate. Qed.

(** C9, amended.  [setZonePv] never looks at the access mode: for every
    entry of the zone's scope, read-only or not, it returns the transport's
    write request for the entry's object and the given value, with the
    shared device address. *)
Theorem setZonePv_ignores_access_mode
        (s : Statics) (this : DzkZone) (sc : scope) (id : string)
        (ob : DzkBacObject) (val : write_value) :
  dzkob this = Some sc ->
  prop sc id = Some ob ->
  DzkZone.setZonePv s this id val
  = Returned (WritePresentValue (ipAddress s) (n ob) val).
Proof.
  intros Hsc Hid. unfold DzkZone.setZonePv, DzkZone.object_string.
  now rewrite Hsc, Hid.
Qed.

(** ** Construction *)

(** C8 as stated fails: constructing the controller of zone 7 returns
    normally, with an undefined scope. *)
Lemma constructor_zone7_returns :
  let place :=
    fun z => mkWorld Statics_initial z InternalStates_initial
                     (DzkZoneConfig.mk "attic" 7) [] in
  (forall e, DzkZone.constructor 7 place <> Threw e) /\
  exists w p, DzkZone.constructor 7 place = Returned (w, p) /\
              dzkob (dzkz w) = None.
Proof.
  split.
  - intros e H. discriminate.
  - eexists _, _. split; reflexivity.
Qed.

(** C8, amended.  Construction returns normally for every zone number.
    For a zone number in 1..6 the new controller holds that zone's scope of
    the directory.  For any other zone number its scope is undefined, and
    each later read or write of a zone object throws [TypeError] at that
    call. *)
Theorem constructor_never_fails :
  (forall (zno : Z) (place : DzkZone -> World),
      exists r, DzkZone.constructor zno place = Returned r) /\
  (forall (dzkconfig : DzkConfig.t) (device : DzkZoneConfig.t)
          (s : Statics) (tr : list event),
      exists w p,
        DzkZoneAccessory.constructor dzkconfig device s tr = Returned (w, p) /\
        zno (dzkz w) = DzkZoneConfig.zone device /\
        dzkob (dzkz w) = zone_scope (DzkZoneConfig.zone device) /\
        ((1 <= DzkZoneConfig.zone device <= 6)%Z ->
         exists sc, dzkob (dzkz w) = Some sc) /\
        (~ (1 <= DzkZoneConfig.zone device <= 6)%Z ->
         dzkob (dzkz w) = None /\
         forall s' id val,
           DzkZone.getZonePv s' (dzkz w) id = Threw TypeError /\
           DzkZone.setZonePv s' (dzkz w) id val = Threw TypeError)).
Proof.
  split.
  - intros zno place. unfold DzkZone.constructor.
    destruct (Qeq_bool _ _); eexists; reflexivity.
  - intros dzkconfig device s tr.
    unfold DzkZoneAccessory.constructor, DzkZone.constructor.
    cbv zeta. rewrite directory_zone_lookup.
    set (s1 := if String.eqb (ipAddress s) "" then _ else s).
    assert (K : forall w : World,
               zno (dzkz w) = DzkZoneConfig.zone device ->
               dzkob (dzkz w) = zone_scope (DzkZoneConfig.zone device) ->
               ((1 <= DzkZoneConfig.zone device <= 6)%Z ->
                exists sc, dzkob (dzkz w) = Some sc) /\
               (~ (1 <= DzkZoneConfig.zone device <= 6)%Z ->
                dzkob (dzkz w) = None /\
                forall s' id val,
                  DzkZone.getZonePv s' (dzkz w) id = Threw TypeError /\
                  DzkZone.setZonePv s' (dzkz w) id val = Threw TypeError)).
    { intros w _ Hob. split; intro R.
      - rewrite Hob. now apply zone_scope_in_range.
      - apply zone_scope_out_of_range in R. rewrite R in Hob.
        split; [exact Hob|]. intros s' id val.
        unfold DzkZone.getZonePv, DzkZone.setZonePv, DzkZone.object_string.
        now rewrite Hob. }
    simpl statics. simpl dzk_opmode.
    destruct (Qeq_bool (dzk_opmode s1) (-1)) eqn:E.
    + eexists _, _. split; [reflexivity|].
      split; [reflexivity|]. split; [reflexivity|].
      apply K; reflexivity.
    + eexists _, _. split; [reflexivity|].
      split; [reflexivity|]. split; [reflexivity|].
      apply K; reflexivity.
Qed.

(** ** Running resumptions *)

Lemma run_bind {A B : Type} (net : pv_request -> reply) (t : task A)
      (f : A -> World -> task B) :
  run net (bind t f)
  = match run net t with
    | (w, Returned a) => run net (f a w)
    | (w, Threw e) => (w, Threw e)
    end.
Proof.
  induction t as [w a|w e|w req k IH]; simpl; auto.
Qed.

Lemma run_try_catch {A : Type} (net : pv_request -> reply) (t : task A)
      (handler : error -> World -> task A) :
  run net (try_catch t handler)
  = match run net t with
    | (w, Returned a) => (w, Returned a)
    | (w, Threw e) => run net (handler e w)
    end.
Proof.
  induction t as [w a|w e|w req k IH]; simpl; auto.
Qed.

Lemma run_await (net : pv_request -> reply) (c : call pv_request) (w : World) :
  run net (await c w)
  = match c with
    | Threw e => (w, Threw e)
    | Returned req =>
        (log_event (Request req) w,
         match net req with
         | Resolved v => Returned v
         | Rejected e => Threw e
         end)
    end.
Proof.
  destruct c as [e|req]; simpl; [reflexivity|].
  destruct (net req); reflexivity.
Qed.

Lemma quiet_refl (w : World) : quiet w w.
Proof.
  repeat split. exists []. split; [now rewrite app_nil_r|constructor].
Qed.

Lemma quiet_trans (w1 w2 w3 : World) : quiet w1 w2 -> quiet w2 w3 -> quiet w1 w3.
Proof.
  intros (Hs & Hd & Hi & r1 & Ht & Hf) (Hs' & Hd' & Hi' & r2 & Ht' & Hf').
  repeat split; try congruence.
  exists (r1 ++ r2)%list. split.
  - rewrite Ht', Ht. now rewrite app_assoc.
  - apply Forall_app. now split.
Qed.

Lemma quiet_request (w : World) (req : pv_request) :
  quiet w (log_event (Request req) w).
Proof.
  repeat split. exists [Request req]. split; [reflexivity|].
  constructor; [now split|constructor].
Qed.

Lemma quiet_set_lastDemand (w : World) (v : number) :
  quiet w (set_lastDemand v w).
Proof.
  repeat split. exists []. split; [now rewrite app_nil_r|constructor].
Qed.

Lemma quiet_set_dzk_opmode (w : World) (v : number) :
  quiet w (set_dzk_opmode v w).
Proof.
  repeat split. exists []. split; [now rewrite app_nil_r|constructor].
Qed.

Lemma quiet_finished {A : Type} net (w0 w : World) (a : A) :
  quiet w0 w -> quiet_task net w0 (Finished w a).
Proof. exact (fun H => H). Qed.

Lemma quiet_await net (w0 w : World) (c : call pv_request) :
  quiet w0 w -> quiet_task net w0 (await c w).
Proof.
  intro H. unfold quiet_task. rewrite run_await.
  destruct c as [e|req]; simpl; [exact H|].
  eapply quiet_trans; [exact H|apply quiet_request].
Qed.

Lemma quiet_bind {A B : Type} net (w0 : World) (t : task A)
      (f : A -> World -> task B) :
  quiet_task net w0 t ->
  (forall a w, quiet w0 w -> quiet_task net w0 (f a w)) ->
  quiet_task net w0 (bind t f).
Proof.
  unfold quiet_task. intros Ht Hf. rewrite run_bind.
  destruct (run net t) as [w [e|a]]; simpl in *; auto.
Qed.

Lemma getCurrentHeatingCoolingState_quiet net (w0 w : World) :
  quiet w0 w -> quiet_task net w0 (DzkZone.getCurrentHeatingCoolingState w).
Proof.
  intro H. unfold DzkZone.getCurrentHeatingCoolingState.
  apply quiet_bind; [now apply quiet_await|]. intros hd w1 H1.
  apply quiet_bind; [now apply quiet_await|]. intros cd w2 H2.
  apply quiet_finished.
  destruct (DzkZone.lastDemand_assignment hd cd); [|exact H2].
  eapply quiet_trans; [exact H2|apply quiet_set_lastDemand].
Qed.

Lemma getTargetHeatingCoolingState_quiet net (w0 w : World) :
  quiet w0 w -> quiet_task net w0 (DzkZone.getTargetHeatingCoolingState w).
Proof.
  intro H. unfold DzkZone.getTargetHeatingCoolingState.
  apply quiet_bind; [now apply quiet_await|]. intros v w1 H1.
  apply quiet_finished.
  eapply quiet_trans; [exact H1|apply quiet_set_dzk_opmode].
Qed.

Lemma refresh_quiet (g : getter) net (w : World) :
  quiet_task net w (refresh g w).
Proof.
  pose proof (quiet_refl w) as R.
  destruct g; unfold refresh;
    try (apply quiet_bind;
         [|intros; now apply quiet_finished]);
    solve [ now apply quiet_await
          | now apply getCurrentHeatingCoolingState_quiet
          | now apply getTargetHeatingCoolingState_quiet ].
Qed.

Lemma cached_store (g : getter) (v : number) (s : InternalStates) :
  cached g (store g v s) = v.
Proof. destruct g; reflexivity. Qed.

(** Every getter is the same bridge around its refresh: deliver the cached
    value, then store the refreshed one, or log the error. *)
Lemma run_handler (g : getter) net (w : World) :
  run net (handler g w)
  = match run net (refresh g (DzkZoneAccessory.callback
                                None (Some (cached g (internalStates w))) w))
    with
    | (w2, Returned v) => (DzkZoneAccessory.assign (store g) v w2, Returned tt)
    | (w2, Threw e) => (DzkZoneAccessory.log_error (op_name g) e w2, Returned tt)
    end.
Proof.
  destruct g; unfold handler, refresh, cached, store, op_name;
    match goal with
    | |- run net (?h w) = _ => unfold h
    end; cbv zeta;
    rewrite run_try_catch, !run_bind;
    repeat match goal with
           | |- context [run net ?t] =>
               match t with
               | Finished _ _ => fail 1
               | _ => destruct (run net t) as [? [?|?]]
               end
           end; reflexivity.
Qed.

(** ** Demand to mode *)

Lemma lastDemand_assignment_spec (hd cd : number) :
  (0 < hd \/ 0 < cd -> DzkZone.lastDemand_assignment hd cd = Some (hd - cd)) /\
  (hd <= 0 /\ cd <= 0 -> DzkZone.lastDemand_assignment hd cd = None).
Proof.
  unfold DzkZone.lastDemand_assignment. split.
  - intros [H|H]; apply Qgtb_true_iff in H; rewrite H;
      [reflexivity|now rewrite orb_true_r].
  - intros [Hh Hc]. apply Qgtb_false_iff in Hh, Hc. now rewrite Hh, Hc.
Qed.

(** What a completed pair of demand reads leaves behind. *)
Lemma run_getCurrentHeatingCoolingState net (w : World)
      (rh rc : pv_request) (hd cd : number) :
  DzkZone.getZonePv (statics w) (dzkz w) "heating-demand" = Returned rh ->
  DzkZone.getZonePv (statics w) (dzkz w) "cooling-demand" = Returned rc ->
  net rh = Resolved hd ->
  net rc = Resolved cd ->
  run net (DzkZone.getCurrentHeatingCoolingState w)
  = (let w2 := log_event (Request rc) (log_event (Request rh) w) in
     match DzkZone.lastDemand_assignment hd cd with
     | Some v => set_lastDemand v w2
     | None => w2
     end,
     Returned
       (DzkZone.state_of_pred
          (Z.lor (if Qgtb cd 0 then 2 else 0) (if Qgtb hd 0 then 1 else 0)))).
Proof.
  intros Hh Hc Nh Nc. unfold DzkZone.getCurrentHeatingCoolingState.
  rewrite run_bind, run_await, Hh, Nh.
  rewrite run_bind, run_await. simpl statics. simpl dzkz.
  rewrite Hc, Nc. reflexivity.
Qed.

(** C1 as stated fails: zone 1 holds [lastDemand = 15] and the unit now
    reports a heating demand of -4 and a cooling demand of 0.  One demand
    is nonzero, yet the guard [hd > 0 || cd > 0] is false: the state is OFF
    and [lastDemand] stays 15, not [-4 - 0]. *)
Lemma negative_demand_is_not_recorded :
  exists w' rv,
    run faulty_unit (DzkZone.getCurrentHeatingCoolingState den_heated)
    = (w', Returned rv) /\
    faulty_unit (ReadPresentValue "192.168.1.50" "AV:16") = Resolved (-4) /\
    faulty_unit (ReadPresentValue "192.168.1.50" "AV:15") = Resolved 0 /\
    ~ (-4 == 0 /\ 0 == 0) /\
    rv = CurrentHeatingCoolingState.OFF /\
    lastDemand (dzkz den_heated) = 15 /\
    lastDemand (dzkz w') = 15 /\
    ~ lastDemand (dzkz w') == -4 - 0.
Proof.
  eexists _, _. split; [reflexivity|].
  split; [reflexivity|]. split; [reflexivity|].
  split; [intros [H _]; vm_compute in H; discriminate|].
  split; [reflexivity|]. split; [reflexivity|]. split; [reflexivity|].
  intro H. vm_compute in H. discriminate.
Qed.

(** C1, amended.  When both demand reads of a zone answer, with [hd] the
    heating and [cd] the cooling demand, [getCurrentHeatingCoolingState]
    returns OFF if both are zero, HEAT if [hd > 0] and [cd = 0], COOL if
    [cd > 0] and [hd = 0], and OFF if both are positive.  The assignment to
    [lastDemand] runs exactly when at least one demand is greater than
    zero; then [lastDemand] becomes [hd - cd].  Otherwise, and so in
    particular when both demands are zero, [lastDemand] keeps its value.
    For readings that are not negative, "greater than zero" and "nonzero"
    are the same. *)
Theorem getCurrentHeatingCoolingState_positive_demand
        (net : pv_request -> reply) (w : World)
        (rh rc : pv_request) (hd cd : number) :
  DzkZone.getZonePv (statics w) (dzkz w) "heating-demand" = Returned rh ->
  DzkZone.getZonePv (statics w) (dzkz w) "cooling-demand" = Returned rc ->
  net rh = Resolved hd ->
  net rc = Resolved cd ->
  exists w' rv,
    run net (DzkZone.getCurrentHeatingCoolingState w) = (w', Returned rv) /\
    (hd == 0 /\ cd == 0 -> rv = CurrentHeatingCoolingState.OFF) /\
    (0 < hd /\ cd == 0 -> rv = CurrentHeatingCoolingState.HEAT) /\
    (0 < cd /\ hd == 0 -> rv = CurrentHeatingCoolingState.COOL) /\
    (0 < hd /\ 0 < cd -> rv = CurrentHeatingCoolingState.OFF) /\
    (DzkZone.lastDemand_assignment hd cd = Some (hd - cd)
     <-> 0 < hd \/ 0 < cd) /\
    (0 < hd \/ 0 < cd -> lastDemand (dzkz w') = hd - cd) /\
    (hd <= 0 /\ cd <= 0 ->
     DzkZone.lastDemand_assignment hd cd = None /\
     lastDemand (dzkz w') = lastDemand (dzkz w)) /\
    (hd == 0 /\ cd == 0 -> lastDemand (dzkz w') = lastDemand (dzkz w)) /\
    (0 <= hd -> 0 <= cd -> (0 < hd \/ 0 < cd <-> ~ (hd == 0 /\ cd == 0))).
Proof.
  intros Hh Hc Nh Nc.
  rewrite (run_getCurrentHeatingCoolingState net w rh rc hd cd Hh Hc Nh Nc).
  eexists _, _. split; [reflexivity|].
  destruct (lastDemand_assignment_spec hd cd) as [Hrun Hskip].
  assert (Z0 : forall q : number, q == 0 -> Qgtb q 0 = false).
  { intros q Hq. apply Qgtb_false_iff. rewrite Hq. apply Qle_refl. }
  assert (P0 : forall q : number, 0 < q -> Qgtb q 0 = true).
  { intros q Hq. now apply Qgtb_true_iff. }
  assert (ZZ : hd == 0 /\ cd == 0 -> hd <= 0 /\ cd <= 0).
  { intros [H1 H2]. split; [rewrite H1|rewrite H2]; apply Qle_refl. }
  repeat match goal with |- _ /\ _ => split end.
  - intros [H1 H2]. now rewrite (Z0 _ H1), (Z0 _ H2).
  - intros [H1 H2]. now rewrite (P0 _ H1), (Z0 _ H2).
  - intros [H1 H2]. now rewrite (P0 _ H1), (Z0 _ H2).
  - intros [H1 H2]. now rewrite (P0 _ H1), (P0 _ H2).
  - split; [|exact Hrun].
    intro Hsome.
    destruct (Qlt_le_dec 0 hd) as [Hp|Hn]; [now left|].
    destruct (Qlt_le_dec 0 cd) as [Hp'|Hn']; [now right|].
    rewrite (Hskip (conj Hn Hn')) in Hsome. discriminate.
  - intro Hp. cbv zeta. now rewrite (Hrun Hp).
  - intro Hz. split; [exact (Hskip Hz)|].
    cbv zeta. now rewrite (Hskip Hz).
  - intro Hz. cbv zeta. now rewrite (Hskip (ZZ Hz)).
  - intros Hh0 Hc0. split.
    + intros [Hp|Hp] [H1 H2]; [rewrite H1 in Hp|rewrite H2 in Hp];
        exact (Qlt_irrefl _ Hp).
    + intro Hnz.
      destruct (Qlt_le_dec 0 hd) as [Hp|Hn]; [now left|].
      destruct (Qlt_le_dec 0 cd) as [Hp'|Hn']; [now right|].
      exfalso. apply Hnz. split; apply Qle_antisym; assumption.
Qed.

(** ** The stale-read bridge *)

(** The synchronous part of a getter: by the time control goes back to the
    event loop, with the reply still to come, the callback has been given
    the cached value, nothing else has reached the callback, and the cache
    is as it was. *)
Lemma handler_synchronous_part (g : getter) (w : World) :
  internalStates (world_of (handler g w)) = internalStates w /\
  exists rest,
    trace (world_of (handler g w))
    = (trace w ++ Callback None (Some (cached g (internalStates w))) :: rest)%list
    /\ Forall (fun ev => is_callback ev = false) rest.
Proof.
  destruct g; unfold handler, cached;
    match goal with
    | |- context [world_of (?h w)] => unfold h
    end; cbv zeta;
    unfold DzkZone.getCurrentHeatingCoolingState,
      DzkZone.getTargetHeatingCoolingState;
    match goal with
    | |- context [await ?c _] => destruct c as [e|req]
    end; simpl; (split; [reflexivity|]);
    rewrite <- app_assoc; simpl; eexists; (split; [reflexivity|]);
    repeat constructor.
Qed.

Lemma constructor_internalStates
      (dzkconfig : DzkConfig.t) (device : DzkZoneConfig.t)
      (s : Statics) (tr : list event) (w : World) (p : option (task number)) :
  DzkZoneAccessory.constructor dzkconfig device s tr = Returned (w, p) ->
  internalStates w = InternalStates_initial.
Proof.
  unfold DzkZoneAccessory.constructor, DzkZone.constructor. cbv zeta.
  destruct (Qeq_bool _ _); intro H; inversion H; reflexivity.
Qed.

(** C4.  For every getter backed by a network read, and every behaviour of
    the network:
    - the call hands the cached value to the callback during its
      synchronous part, before any reply, and the cache is unchanged at
      that point, so that every call made before a reply has arrived is
      answered with the value the cache started with;
    - on an accessory fresh from its constructor that value is the default
      of the constructor;
    - the call never throws to its caller, and the callback receives nothing
      but that one value;
    - when the refresh throws, the cache is left as it was and the error
      goes to the error log;
    - when the refresh succeeds, nothing is logged as an error, the cache
      holds the refreshed value and the next call hands that value to the
      callback. *)
Theorem stale_read_bridge
        (g : getter) (net : pv_request -> reply) (w : World) :
  let old := cached g (internalStates w) in
  (internalStates (world_of (handler g w)) = internalStates w /\
   exists rest,
     trace (world_of (handler g w))
     = (trace w ++ Callback None (Some old) :: rest)%list /\
     Forall (fun ev => is_callback ev = false) rest) /\
  (forall dzkconfig device s tr w0 p,
      DzkZoneAccessory.constructor dzkconfig device s tr = Returned (w0, p) ->
      exists rest,
        trace (world_of (handler g w0))
        = (trace w0
             ++ Callback None (Some (cached g InternalStates_initial)) :: rest)%list) /\
  exists w' rest,
    run net (handler g w) = (w', Returned tt) /\
    trace w' = (trace w ++ Callback None (Some old) :: rest)%list /\
    Forall (fun ev => is_callback ev = false) rest /\
    match run net (refresh g (DzkZoneAccessory.callback None (Some old) w))
    with
    | (_, Threw e) =>
        internalStates w' = internalStates w /\
        In (LogError (op_name g) (DzkZoneConfig.zone (device w)) e) rest
    | (_, Returned v) =>
        Forall (fun ev => is_log_error ev = false) rest /\
        cached g (internalStates w') = v /\
        exists rest',
          trace (world_of (handler g w'))
          = (trace w' ++ Callback None (Some v) :: rest')%list
    end.
Proof.
  intro old. split; [apply handler_synchronous_part|].
  split.
  { intros dzkconfig device s tr w0 p Hc.
    destruct (handler_synchronous_part g w0) as (_ & rest & Hr & _).
    exists rest. rewrite Hr.
    now rewrite (constructor_internalStates _ _ _ _ _ _ Hc). }
  rewrite run_handler. fold old.
  pose proof (refresh_quiet g net
                (DzkZoneAccessory.callback None (Some old) w)) as Q.
  unfold quiet_task in Q.
  destruct (run net (refresh g _)) as [w2 [e|v]];
    destruct Q as (Hs & Hd & _ & r & Ht & Hf); simpl in Hs, Hd, Ht.
  - exists (DzkZoneAccessory.log_error (op_name g) e w2),
      (r ++ [LogError (op_name g) (DzkZoneConfig.zone (device w)) e])%list.
    split; [reflexivity|]. split.
    + simpl. rewrite Ht, Hd. now rewrite <- !app_assoc.
    + split.
      * apply Forall_app. split.
        -- eapply Forall_impl; [|exact Hf]. now intros ev [? _].
        -- now repeat constructor.
      * split; [exact Hs|]. apply in_or_app. right. now left.
  - exists (DzkZoneAccessory.assign (store g) v w2), r.
    split; [reflexivity|]. split.
    + simpl. rewrite Ht. now rewrite <- app_assoc.
    + split; [eapply Forall_impl; [|exact Hf]; now intros ev [? _]|].
      split; [eapply Forall_impl; [|exact Hf]; now intros ev [_ ?]|].
      assert (Hc : cached g (internalStates
                                (DzkZoneAccessory.assign (store g) v w2)) = v)
        by apply cached_store.
      split; [exact Hc|].
      destruct (handler_synchronous_part
                  g (DzkZoneAccessory.assign (store g) v w2))
        as (_ & rest' & Hr & _).
      exists rest'. now rewrite Hr, Hc.
Qed.

(** The bridge at [getCurrentTemperature], in terms of the reply to its one
    read: a resolved reply [v] puts [f2c v] in the cache, a rejection
    leaves the cache alone and is logged under the name of the operation
    and the zone. *)
Lemma getCurrentTemperature_refresh
      (net : pv_request -> reply) (w : World) (req : pv_request) :
  DzkZone.getCurrentTemperature (statics w) (dzkz w) = Returned req ->
  let old := currentTemperature (internalStates w) in
  (forall v, net req = Resolved v ->
     exists w',
       run net (DzkZoneAccessory.getCurrentTemperature w) = (w', Returned tt) /\
       currentTemperature (internalStates w') = f2c v /\
       trace w' = (trace w ++ [Callback None (Some old); Request req])%list) /\
  (forall e, net req = Rejected e ->
     exists w',
       run net (DzkZoneAccessory.getCurrentTemperature w) = (w', Returned tt) /\
       internalStates w' = internalStates w /\
       trace w'
       = (trace w ++ [Callback None (Some old); Request req;
                      LogError "getCurrentTemperature"
                               (DzkZoneConfig.zone (device w)) e])%list).
Proof.
  intros Hreq old. unfold DzkZoneAccessory.getCurrentTemperature. cbv zeta.
  split.
  - intros v Hv. rewrite run_try_catch, run_bind, run_await.
    simpl statics. simpl dzkz. rewrite Hreq, Hv.
    eexists. split; [reflexivity|]. split; [reflexivity|].
    simpl. now rewrite <- !app_assoc.
  - intros e He. rewrite run_try_catch, run_bind, run_await.
    simpl statics. simpl dzkz. rewrite Hreq, He.
    eexists. split; [reflexivity|]. split; [reflexivity|].
    simpl. now rewrite <- !app_assoc.
Qed.

(** A new accessory of zone 1 whose read of the room temperature is answered
    with 77 degrees Fahrenheit: the first call delivers the default 20.5,
    the second one the refreshed [f2c 77], which is 25. *)
Example getCurrentTemperature_twice :
  let net := fun _ => Resolved 77 in
  let w0 := mkWorld (mkStatics "192.168.1.50" DzkOperationMode.AUTO)
                    (mkZone 1 (zone_scope 1) 0)
                    InternalStates_initial (DzkZoneConfig.mk "den" 1) [] in
  let w1 := fst (run net (DzkZoneAccessory.getCurrentTemperature w0)) in
  let w2 := fst (run net (DzkZoneAccessory.getCurrentTemperature w1)) in
  trace w2
  = [ Callback None (Some 20.5);
      Request (ReadPresentValue "192.168.1.50" "AI:0");
      Callback None (Some (f2c 77));
      Request (ReadPresentValue "192.168.1.50" "AI:0") ] /\
  f2c 77 == 25.
Proof. split; reflexivity. Qed.

(** ** The shared device address *)

Lemma constructor_statics (dzkconfig : DzkConfig.t) (device : DzkZoneConfig.t)
      (s : Statics) (tr : list event) :
  exists w p,
    DzkZoneAccessory.constructor dzkconfig device s tr = Returned (w, p) /\
    ipAddress (statics w)
    = (if String.eqb (ipAddress s) ""
       then DzkConfig.ipAddress dzkconfig else ipAddress s) /\
    dzk_opmode (statics w) = dzk_opmode s.
Proof.
  unfold DzkZoneAccessory.constructor, DzkZone.constructor. cbv zeta.
  simpl statics.
  destruct (Qeq_bool _ _); eexists _, _; (split; [reflexivity|]);
    destruct (String.eqb (ipAddress s) ""); split; reflexivity.
Qed.

Lemma construct_all_keeps_address (cs : list (DzkConfig.t * DzkZoneConfig.t)) :
  forall (s : Statics) (tr : list event),
    ipAddress s <> "" ->
    ipAddress (fst (fst (construct_all cs s tr))) = ipAddress s.
Proof.
  induction cs as [|[dzkconfig device] rest IH]; intros s tr Hne;
    [reflexivity|].
  simpl.
  destruct (constructor_statics dzkconfig device s tr)
    as (w & p & Hc & Hip & _).
  rewrite Hc.
  apply String.eqb_neq in Hne. rewrite Hne in Hip.
  specialize (IH (statics w) (trace w)).
  destruct (construct_all rest (statics w) (trace w)) as [[s' tr'] ws].
  simpl in *. rewrite IH; [exact Hip|].
  rewrite Hip. now apply String.eqb_neq.
Qed.

Lemma address_assignments_after_set
      (cs : list (DzkConfig.t * DzkZoneConfig.t)) :
  forall (s : Statics) (tr : list event),
    ipAddress s <> "" -> address_assignments cs s tr = 0%nat.
Proof.
  induction cs as [|[dzkconfig device] rest IH]; intros s tr Hne;
    [reflexivity|].
  simpl.
  destruct (constructor_statics dzkconfig device s tr)
    as (w & p & Hc & Hip & _).
  rewrite Hc.
  apply String.eqb_neq in Hne. rewrite Hne in *.
  rewrite IH; [reflexivity|].
  rewrite Hip. now apply String.eqb_neq.
Qed.

(** C6.  A construction that finds the shared address empty copies the
    configured [ipAddress] into it.  Once the shared address is not empty,
    no sequence of further constructions, whatever their configurations,
    changes it, and settling the mode fetch that a constructor starts does
    not change it either.  So in a sequence of constructions that starts
    from the empty address with a configured address that is not empty, the
    assignment runs exactly once, in the first construction, and the address
    it stored is the one found at the end. *)
Theorem shared_address_set_once :
  (forall dzkconfig device s tr,
      ipAddress s = "" ->
      exists w p,
        DzkZoneAccessory.constructor dzkconfig device s tr = Returned (w, p) /\
        ipAddress (statics w) = DzkConfig.ipAddress dzkconfig) /\
  (forall cs s tr,
      ipAddress s <> "" ->
      ipAddress (fst (fst (construct_all cs s tr))) = ipAddress s /\
      address_assignments cs s tr = 0%nat) /\
  (forall dzkconfig device cs s tr,
      ipAddress s = "" ->
      DzkConfig.ipAddress dzkconfig <> "" ->
      ipAddress (fst (fst (construct_all ((dzkconfig, device) :: cs) s tr)))
      = DzkConfig.ipAddress dzkconfig /\
      address_assignments ((dzkconfig, device) :: cs) s tr = 1%nat) /\
  (forall net w,
      ipAddress (statics (settle_floating
                            net (DzkZone.getTargetHeatingCoolingState w)))
      = ipAddress (statics w)).
Proof.
  repeat match goal with |- _ /\ _ => split end.
  - intros dzkconfig device s tr He.
    destruct (constructor_statics dzkconfig device s tr)
      as (w & p & Hc & Hip & _).
    exists w, p. split; [exact Hc|]. now rewrite He in Hip.
  - intros cs s tr Hne. split.
    + now apply construct_all_keeps_address.
    + now apply address_assignments_after_set.
  - intros dzkconfig device cs s tr He Hne.
    destruct (constructor_statics dzkconfig device s tr)
      as (w & p & Hc & Hip & _).
    rewrite He in Hip. simpl in Hip.
    assert (Hw : ipAddress (statics w) <> "") by now rewrite Hip.
    split.
    + simpl. rewrite Hc.
      pose proof (construct_all_keeps_address cs (statics w) (trace w) Hw) as K.
      destruct (construct_all cs (statics w) (trace w)) as [[s' tr'] ws].
      simpl in *. now rewrite K.
    + simpl. rewrite Hc, He. simpl.
      now rewrite address_assignments_after_set.
  - intros net w. unfold settle_floating.
    pose proof (getTargetHeatingCoolingState_quiet net w w (quiet_refl w)) as Q.
    unfold quiet_task in Q.
    destruct (run net (DzkZone.getTargetHeatingCoolingState w)) as [w' [e|v]];
      destruct Q as (_ & _ & Hi & _); exact Hi.
Qed.

(** ** The eager mode fetch of the constructor *)

(** When the mode cache holds the sentinel, a construction starts the fetch
    of the global mode and drops its promise.  If the transport rejects
    that read, construction has already returned, the mode cache keeps its
    value, and the rejection is unhandled: no error is logged. *)
Lemma constructor_fetch_rejected
      (dzkconfig : DzkConfig.t) (device : DzkZoneConfig.t)
      (s : Statics) (tr : list event)
      (net : pv_request -> reply) (e : error) :
  dzk_opmode s == -1 ->
  (forall address, net (ReadPresentValue address "MO:0") = Rejected e) ->
  exists w p,
    DzkZoneAccessory.constructor dzkconfig device s tr = Returned (w, Some p) /\
    trace w
    = (tr ++ [Request (ReadPresentValue (ipAddress (statics w)) "MO:0")])%list /\
    dzk_opmode (statics (settle_floating net p)) = dzk_opmode s /\
    trace (settle_floating net p)
    = (tr ++ [Request (ReadPresentValue (ipAddress (statics w)) "MO:0");
              UnhandledRejection e])%list.
Proof.
  intros Hm Hnet.
  unfold DzkZoneAccessory.constructor, DzkZone.constructor. cbv zeta.
  simpl statics. simpl dzk_opmode.
  assert (E : Qeq_bool
                (dzk_opmode
                   (if String.eqb (ipAddress s) ""
                    then mkStatics (DzkConfig.ipAddress dzkconfig) (dzk_opmode s)
                    else s)) (-1) = true).
  { apply Qeq_bool_iff. now destruct (String.eqb (ipAddress s) ""). }
  rewrite E. eexists _, _. split; [reflexivity|].
  split; [reflexivity|].
  unfold settle_floating. simpl. rewrite Hnet. simpl.
  split.
  - now destruct (String.eqb (ipAddress s) "").
  - now rewrite <- app_assoc.
Qed.

(** C7.  The code at the failing input: the first zone is constructed
    while the mode cache is [-1], and the transport rejects the read of the
    global mode (MO:0).  Construction returns normally and the mode stays
    [-1]; but nothing catches the rejection of the dropped promise: it
    leaves the program as an unhandled rejection, and no error is logged
    for it.  The accessory's own
    [getTargetHeatingCoolingState] handler, given the same rejection,
    catches it and logs it. *)
Theorem eager_fetch_rejection_is_unhandled :
  let dzkconfig := DzkConfig.mk "192.168.1.50" [DzkZoneConfig.mk "den" 1] in
  let device := DzkZoneConfig.mk "den" 1 in
  let timeout := TransportError "timeout" in
  let net := fun _ : pv_request => Rejected timeout in
  let fetch := ReadPresentValue "192.168.1.50" "MO:0" in
  exists w p,
    DzkZoneAccessory.constructor dzkconfig device Statics_initial []
    = Returned (w, Some p) /\
    trace w = [Request fetch] /\
    dzk_opmode (statics (settle_floating net p)) = -1 /\
    trace (settle_floating net p) = [Request fetch; UnhandledRejection timeout] /\
    Forall (fun ev => is_log_error ev = false) (trace (settle_floating net p)) /\
    trace (fst (run net (DzkZoneAccessory.getTargetHeatingCoolingState w)))
    = [Request fetch; Callback None (Some TargetHeatingCoolingState.OFF);
       Request fetch; LogError "getTargetHeatingCoolingState" 1 timeout].
Proof.
  eexists _, _. split; [reflexivity|].
  repeat split; repeat constructor.
Qed.

(** ** The theorems at concrete inputs *)

(** C1, amended, at the end-to-end scenario of zone 1 with heating demand 15
    and cooling demand 0: the state is HEAT and [lastDemand] becomes
    [15 - 0]. *)
Lemma getCurrentHeatingCoolingState_positive_demand_witness :
  DzkZone.getZonePv (statics den) (dzkz den) "heating-demand"
  = Returned (ReadPresentValue "192.168.1.50" "AV:16") /\
  DzkZone.getZonePv (statics den) (dzkz den) "cooling-demand"
  = Returned (ReadPresentValue "192.168.1.50" "AV:15") /\
  heating_unit (ReadPresentValue "192.168.1.50" "AV:16") = Resolved 15 /\
  heating_unit (ReadPresentValue "192.168.1.50" "AV:15") = Resolved 0 /\
  exists w' rv,
    run heating_unit (DzkZone.getCurrentHeatingCoolingState den)
    = (w', Returned rv) /\
    rv = CurrentHeatingCoolingState.HEAT /\
    lastDemand (dzkz w') = 15 - 0.
Proof.
  do 4 (split; [reflexivity|]).
  destruct (getCurrentHeatingCoolingState_positive_demand
              heating_unit den
              (ReadPresentValue "192.168.1.50" "AV:16")
              (ReadPresentValue "192.168.1.50" "AV:15")
              15 0 eq_refl eq_refl eq_refl eq_refl)
    as (w' & rv & Hrun & _ & Hheat & _ & _ & _ & Hld & _).
  exists w', rv. split; [exact Hrun|]. split.
  - apply Hheat. split; reflexivity.
  - apply Hld. left. reflexivity.
Defined.

(** C2 at zone 1: in mode AUTO with nothing observed the read goes to the
    cold set point AV:2. *)
Lemma getTargetTemperature_arbitration_witness :
  (1 <= 1 <= 6)%Z /\
  dzkob (dzkz den) = prop dzk_objects.table ("zone" ++ string_of_number 1) /\
  DzkZone.getTargetTemperature (statics den) (dzkz den)
  = Returned (ReadPresentValue "192.168.1.50" "AV:2").
Proof.
  split; [lia|]. split; [reflexivity|].
  destruct (getTargetTemperature_arbitration
              (statics den) (dzkz den) 1 ltac:(lia) eq_refl)
    as (sc & heat & cold & Hsc & Hh & Hc & _ & _ & Hauto).
  destruct (Hauto (or_introl (Qeq_refl _))) as [_ Hcold].
  rewrite Hcold.
  - injection Hsc as <-. injection Hc as <-. reflexivity.
  - discriminate.
Defined.

(** C9, amended, at the read-only room temperature of zone 1. *)
Lemma setZonePv_ignores_access_mode_witness :
  dzkob (dzkz den) = Some dzk_objects.zone1 /\
  prop dzk_objects.zone1 "room-temperature"
  = Some (mkOb "AI:0" "Z1 Room temperature" "R") /\
  DzkZone.setZonePv (statics den) (dzkz den) "room-temperature" (Plain 70)
  = Returned (WritePresentValue "192.168.1.50" "AI:0" (Plain 70)).
Proof.
  split; [reflexivity|]. split; [reflexivity|].
  exact (setZonePv_ignores_access_mode
           (statics den) (dzkz den) dzk_objects.zone1 "room-temperature"
           (mkOb "AI:0" "Z1 Room temperature" "R") (Plain 70)
           eq_refl eq_refl).
Defined.


(** C8, amended, at zone 7: construction returns, the scope is undefined
    and a read of the room temperature throws. *)
Lemma constructor_never_fails_witness :
  exists w p,
    DzkZoneAccessory.constructor
      (DzkConfig.mk "192.168.1.50" [DzkZoneConfig.mk "attic" 7])
      (DzkZoneConfig.mk "attic" 7) Statics_initial []
    = Returned (w, p) /\
    dzkob (dzkz w) = None /\
    DzkZone.getCurrentTemperature (statics w) (dzkz w) = Threw TypeError.
Proof.
  destruct (proj2 constructor_never_fails
              (DzkConfig.mk "192.168.1.50" [DzkZoneConfig.mk "attic" 7])
              (DzkZoneConfig.mk "attic" 7) Statics_initial [])
    as (w & p & Hc & _ & _ & _ & Hout).
  exists w, p. split; [exact Hc|].
  destruct (Hout ltac:(simpl; lia)) as [Hnone Hthrow].
  split; [exact Hnone|].
  exact (proj1 (Hthrow (statics w) "room-temperature" (Plain 0))).
Defined.

(** C6 at two zones configured with different addresses: the first
    construction stores its address, the second one leaves it. *)
Lemma shared_address_set_once_witness :
  let first := DzkConfig.mk "192.168.1.50" [] in
  let second := DzkConfig.mk "10.0.0.7" [] in
  let cs := [ (first, DzkZoneConfig.mk "den" 1);
              (second, DzkZoneConfig.mk "loft" 2) ] in
  ipAddress (fst (fst (construct_all cs Statics_initial []))) = "192.168.1.50" /\
  address_assignments cs Statics_initial [] = 1%nat.
Proof.
  exact (proj1 (proj2 (proj2 shared_address_set_once))
           (DzkConfig.mk "192.168.1.50" []) (DzkZoneConfig.mk "den" 1)
           [ (DzkConfig.mk "10.0.0.7" [], DzkZoneConfig.mk "loft" 2) ]
           Statics_initial [] eq_refl
           ltac:(discriminate)).
Defined.

(** * Further properties of the code *)

(** ** What one request of homebridge can change *)

(** Case analysis on every controller call and every reply met while a
    handler runs. *)
Ltac run_step :=
  cbn -[Qeq_bool Qle_bool Qgtb String.eqb f2c c2f Qminus
        DzkZone.to_hap_target_heatcool_state
        DzkZone.from_hap_target_heatcool_state
        DzkZone.to_hap_fanstate DzkZone.bac_ob
        DzkZone.lastDemand_assignment DzkZone.state_of_pred
        DzkZone.getZonePv DzkZone.setZonePv
        DzkZone.getGlobalPv DzkZone.setGlobalPv app].

Ltac run_cases :=
  repeat (run_step;
          match goal with
          | |- context [await ?c _] => destruct c eqn:?
          | |- context [match ?r with Resolved _ => _ | Rejected _ => _ end] =>
              destruct r eqn:?
          | |- context [match ?o with Some _ => _ | None => _ end] =>
              destruct o eqn:?
          end);
  run_step.

Ltac unfold_handlers :=
  unfold perform, handler,
    DzkZoneAccessory.getCurrentHeatingCoolingState,
    DzkZoneAccessory.getTargetHeatingCoolingState,
    DzkZoneAccessory.setTargetHeatingCoolingState,
    DzkZoneAccessory.getCurrentTemperature,
    DzkZoneAccessory.getCurrentFanState,
    DzkZoneAccessory.getCurrentRelativeHumidity,
    DzkZoneAccessory.getTargetTemperature,
    DzkZoneAccessory.setTargetTemperature,
    DzkZoneAccessory.getHeatingThresholdTemperature,
    DzkZoneAccessory.setHeatingThresholdTemperature,
    DzkZoneAccessory.getCoolingThresholdTemperature,
    DzkZoneAccessory.setCoolingThresholdTemperature,
    DzkZoneAccessory.getTemperatureDisplayUnits,
    DzkZoneAccessory.setTemperatureDisplayUnits,
    DzkZone.getCurrentHeatingCoolingState,
    DzkZone.getTargetHeatingCoolingState,
    DzkZone.setTargetHeatingCoolingState,
    DzkZone.getCurrentTemperature, DzkZone.getCurrentFanState,
    DzkZone.getCurrentRelativeHumidity, DzkZone.getTargetTemperature,
    DzkZone.setTargetTemperature, DzkZone.getHeatSetpoint,
    DzkZone.setHeatSetpoint, DzkZone.getCoolSetpoint,
    DzkZone.setCoolSetpoint.

Lemma perform_frame (net : pv_request -> reply) (o : operation) (w : World) :
  device (perform net o w) = device w /\
  ipAddress (statics (perform net o w)) = ipAddress (statics w) /\
  zno (dzkz (perform net o w)) = zno (dzkz w) /\
  dzkob (dzkz (perform net o w)) = dzkob (dzkz w).
Proof.
  destruct o as [g| | | | | |]; [destruct g|..];
    unfold_handlers; run_cases; repeat split.
Qed.

Lemma perform_trace (net : pv_request -> reply) (o : operation) (w : World) :
  exists v rest,
    trace (perform net o w) = (trace w ++ Callback None v :: rest)%list /\
    Forall (fun ev => is_callback ev = false /\ is_unhandled ev = false) rest /\
    (length (filter is_request rest) <= 2)%nat.
Proof.
  destruct o as [g| | | | | |]; [destruct g|..];
    unfold_handlers; run_cases;
    rewrite <- ?app_assoc; cbn [app];
    eexists _, _; (split; [reflexivity|]);
    (split; [repeat constructor|cbn; lia]).
Qed.

Lemma perform_cache (net : pv_request -> reply) (g : getter) (o : operation)
      (w : World) :
  assigns_cache g o = false ->
  cached g (internalStates (perform net o w)) = cached g (internalStates w).
Proof.
  destruct o as [g'| | | | | |]; [destruct g'|..]; destruct g;
    try discriminate; intros _;
    unfold_handlers; run_cases; reflexivity.
Qed.

Lemma perform_display_units (net : pv_request -> reply) (o : operation)
      (w : World) :
  is_set_display_units o = false ->
  temperatureDisplayUnits (internalStates (perform net o w))
  = temperatureDisplayUnits (internalStates w).
Proof.
  destruct o as [g| | | | | |]; [destruct g|..];
    try discriminate; intros _;
    unfold_handlers; run_cases; reflexivity.
Qed.

Lemma perform_opmode (net : pv_request -> reply) (o : operation) (w : World) :
  assigns_opmode o = false ->
  dzk_opmode (statics (perform net o w)) = dzk_opmode (statics w).
Proof.
  destruct o as [g| | | | | |]; [destruct g|..];
    try discriminate; intros _;
    unfold_handlers; run_cases; reflexivity.
Qed.

Lemma perform_lastDemand (net : pv_request -> reply) (o : operation)
      (w : World) :
  o <> Get GetCurrentHeatingCoolingState ->
  lastDemand (dzkz (perform net o w)) = lastDemand (dzkz w).
Proof.
  destruct o as [g| | | | | |]; [destruct g|..];
    try (intros H; now contradiction H); intros _;
    unfold_handlers; run_cases; reflexivity.
Qed.

Lemma filter_none {A : Type} (f : A -> bool) (l : list A) :
  Forall (fun x => f x = false) l -> filter f l = [].
Proof.
  induction 1 as [|x l Hx _ IH]; [reflexivity|].
  simpl. now rewrite Hx.
Qed.

(** ** Sessions *)

(** X1.  Whatever homebridge asks of an accessory, in whatever order and
    whatever the network answers, the accessory keeps its configuration,
    the shared device address, its zone number and the scope of the
    directory it was built with: only construction sets them. *)
Theorem session_keeps_configuration
        (session : list ((pv_request -> reply) * operation)) (w : World) :
  device (perform_all session w) = device w /\
  ipAddress (statics (perform_all session w)) = ipAddress (statics w) /\
  zno (dzkz (perform_all session w)) = zno (dzkz w) /\
  dzkob (dzkz (perform_all session w)) = dzkob (dzkz w).
Proof.
  revert w. induction session as [|[net o] rest IH]; intro w;
    [repeat split|].
  simpl. destruct (IH (perform net o w)) as (Hd & Hi & Hz & Ho).
  destruct (perform_frame net o w) as (Hd' & Hi' & Hz' & Ho').
  repeat split; congruence.
Qed.

(** Whatever the network does, the promise of an [async] handler is
    fulfilled: every error of the refresh or of the write ends in the
    handler's own [catch]. *)
Lemma handler_promise_fulfilled (net : pv_request -> reply) (w : World) :
  (forall g, snd (run net (handler g w)) = Returned tt) /\
  (forall value,
      snd (run net (DzkZoneAccessory.setTargetHeatingCoolingState value w))
      = Returned tt) /\
  (forall value,
      snd (run net (DzkZoneAccessory.setTargetTemperature value w))
      = Returned tt) /\
  (forall value,
      snd (run net (DzkZoneAccessory.setHeatingThresholdTemperature value w))
      = Returned tt) /\
  (forall value,
      snd (run net (DzkZoneAccessory.setCoolingThresholdTemperature value w))
      = Returned tt).
Proof.
  repeat match goal with |- _ /\ _ => split end;
    [intro g; destruct g|intro value..];
    unfold_handlers; run_cases; reflexivity.
Qed.

(** Since no handler's promise is rejected, serving a request leaves the
    state that running its handler leaves. *)
Lemma serve_perform (net : pv_request -> reply) (o : operation) (w : World) :
  serve net o w = perform net o w.
Proof.
  destruct (handler_promise_fulfilled net w) as (Hg & Hm & Ht & Hh & Hc).
  destruct o as [g|value|value|value|value| |]; try reflexivity;
    unfold serve, perform, settle_floating;
    [specialize (Hg g)|specialize (Hm value)|specialize (Ht value)
     |specialize (Hh value)|specialize (Hc value)];
    match goal with
    | H : snd ?r = Returned tt |- _ =>
        destruct r as [w' [e|[]]]; [discriminate H|reflexivity]
    end.
Qed.

Lemma serve_all_perform_all
      (session : list ((pv_request -> reply) * operation)) (w : World) :
  serve_all session w = perform_all session w.
Proof.
  revert w. induction session as [|[net o] rest IH]; intro w; [reflexivity|].
  simpl. now rewrite serve_perform, IH.
Qed.

Lemma perform_all_trace
      (session : list ((pv_request -> reply) * operation)) (w : World) :
  exists added,
    trace (perform_all session w) = (trace w ++ added)%list /\
    length (filter is_callback added) = length session /\
    Forall (fun ev => is_callback ev = true -> is_plain_callback ev = true)
           added /\
    Forall (fun ev => is_unhandled ev = false) added /\
    (length (filter is_request added) <= 2 * length session)%nat.
Proof.
  revert w. induction session as [|[net o] rest IH]; intro w.
  - exists []. rewrite app_nil_r. repeat split; try constructor.
  - simpl perform_all.
    destruct (IH (perform net o w)) as (added & Ht & Hn & Hp & Hu & Hr).
    destruct (perform_trace net o w) as (v & own & Ho & Hf & Hq).
    exists (Callback None v :: own ++ added)%list.
    assert (Hc : filter is_callback own = []).
    { apply filter_none. eapply Forall_impl; [|exact Hf]. now intros ev [? _]. }
    split; [|split; [|split; [|split]]].
    + rewrite Ht, Ho. now rewrite <- app_assoc.
    + simpl. rewrite filter_app, Hc. simpl. now rewrite Hn.
    + constructor; [reflexivity|]. apply Forall_app. split; [|exact Hp].
      eapply Forall_impl; [|exact Hf]. intros ev [E _] E'. congruence.
    + constructor; [reflexivity|]. apply Forall_app. split; [|exact Hu].
      eapply Forall_impl; [|exact Hf]. now intros ev [_ ?].
    + simpl. rewrite filter_app, length_app. simpl length. lia.
Qed.

(** X2.  Homebridge calls a handler and drops the promise it returns.
    Whatever the network does, the promise of every handler is fulfilled,
    never rejected, so that over any session the event loop sees no
    unhandled rejection; every request is answered by exactly one call of
    the callback, always with a null error; the trace before the session is
    kept; and a request costs at most two transport requests. *)
Theorem session_answers_each_request
        (session : list ((pv_request -> reply) * operation)) (w : World) :
  (forall net w0,
      (forall g, snd (run net (handler g w0)) = Returned tt) /\
      (forall value,
          snd (run net (DzkZoneAccessory.setTargetHeatingCoolingState
                          value w0))
          = Returned tt) /\
      (forall value,
          snd (run net (DzkZoneAccessory.setTargetTemperature value w0))
          = Returned tt) /\
      (forall value,
          snd (run net (DzkZoneAccessory.setHeatingThresholdTemperature
                          value w0))
          = Returned tt) /\
      (forall value,
          snd (run net (DzkZoneAccessory.setCoolingThresholdTemperature
                          value w0))
          = Returned tt)) /\
  exists added,
    trace (serve_all session w) = (trace w ++ added)%list /\
    length (filter is_callback added) = length session /\
    Forall (fun ev => is_callback ev = true -> is_plain_callback ev = true)
           added /\
    Forall (fun ev => is_unhandled ev = false) added /\
    (length (filter is_request added) <= 2 * length session)%nat.
Proof.
  split; [exact handler_promise_fulfilled|].
  rewrite serve_all_perform_all. apply perform_all_trace.
Qed.

(** X3.  A field of the cache is only ever assigned by the getter that
    serves it (and the target state also by the target-state setter): over
    a session without these operations the field keeps its value.  In
    particular no write of a set point, successful or not, changes any
    cached field. *)
Theorem cache_field_owner
        (g : getter) (session : list ((pv_request -> reply) * operation))
        (w : World) :
  Forall (fun p => assigns_cache g (snd p) = false) session ->
  cached g (internalStates (perform_all session w))
  = cached g (internalStates w).
Proof.
  revert w. induction session as [|[net o] rest IH]; intros w H;
    [reflexivity|].
  simpl. inversion H as [|? ? Ho Hrest]; subst.
  rewrite (IH _ Hrest). now apply perform_cache.
Qed.

(** X4.  The shared operation mode is assigned by the target-state getter
    and setter only, and [lastDemand] by the current-state getter only:
    sessions without them leave the mode, respectively [lastDemand], as it
    was. *)
Theorem controller_state_owner
        (session : list ((pv_request -> reply) * operation)) (w : World) :
  (Forall (fun p => assigns_opmode (snd p) = false) session ->
   dzk_opmode (statics (perform_all session w)) = dzk_opmode (statics w)) /\
  (Forall (fun p => snd p <> Get GetCurrentHeatingCoolingState) session ->
   lastDemand (dzkz (perform_all session w)) = lastDemand (dzkz w)).
Proof.
  split; revert w; induction session as [|[net o] rest IH]; intros w H;
    try reflexivity; simpl; inversion H as [|? ? Ho Hrest]; subst;
    rewrite (IH _ Hrest).
  - now apply perform_opmode.
  - now apply perform_lastDemand.
Qed.

Lemma session_display_units
      (session : list ((pv_request -> reply) * operation)) (w : World) :
  Forall (fun p => is_set_display_units (snd p) = false) session ->
  temperatureDisplayUnits (internalStates (perform_all session w))
  = temperatureDisplayUnits (internalStates w).
Proof.
  revert w. induction session as [|[net o] rest IH]; intros w H;
    [reflexivity|].
  simpl. inversion H as [|? ? Ho Hrest]; subst.
  rewrite (IH _ Hrest). now apply perform_display_units.
Qed.

(** X5.  The display units are a value of the cache alone: setting them
    answers the callback and sends nothing to the network, and after any
    session that does not set them again a read hands back the value set,
    again without a transport request. *)
Theorem display_units_roundtrip
        (net1 net2 : pv_request -> reply) (value : number)
        (session : list ((pv_request -> reply) * operation)) (w : World) :
  Forall (fun p => is_set_display_units (snd p) = false) session ->
  let w1 := perform net1 (SetTemperatureDisplayUnits value) w in
  let w2 := perform_all session w1 in
  trace w1 = (trace w ++ [Callback None None])%list /\
  temperatureDisplayUnits (internalStates w2) = value /\
  trace (perform net2 GetTemperatureDisplayUnits w2)
  = (trace w2 ++ [Callback None (Some value)])%list.
Proof.
  intros H w1 w2.
  assert (K : temperatureDisplayUnits (internalStates w2) = value).
  { unfold w2. now rewrite (session_display_units session w1 H). }
  split; [reflexivity|]. split; [exact K|].
  simpl. now rewrite K.
Qed.

(** ** The global objects *)

Lemma getGlobalPv_operation_mode (s : Statics) :
  DzkZone.getGlobalPv s "dzk-operation-mode"
  = Returned (ReadPresentValue (ipAddress s) "MO:0").
Proof. reflexivity. Qed.

Lemma setGlobalPv_operation_mode (s : Statics) (val : write_value) :
  DzkZone.setGlobalPv s "dzk-operation-mode" val
  = Returned (WritePresentValue (ipAddress s) "MO:0" val).
Proof. reflexivity. Qed.

Lemma getGlobalPv_global_fan (s : Statics) :
  DzkZone.getGlobalPv s "dzk-global-fan"
  = Returned (ReadPresentValue (ipAddress s) "BV:0").
Proof. reflexivity. Qed.

(** ** Writes *)

(** X6.  The three set-point writers acknowledge first and then send one
    write of the Fahrenheit value [c2f value]: the heating threshold to the
    zone's heat set point, the cooling threshold to its cold set point, the
    target temperature to the one or the other by the sign of
    [lastDemand].  Apart from the trace they change nothing, on success as
    on failure: the cache keeps showing the old set point until a getter
    refreshes it; a rejection is logged under the name of the writer. *)
Theorem setpoint_writes
        (net : pv_request -> reply) (w : World) (sc : scope)
        (heat cold : DzkBacObject) (value : number) :
  dzkob (dzkz w) = Some sc ->
  prop sc "heat-set-point" = Some heat ->
  prop sc "cold-set-point" = Some cold ->
  let write ob :=
    WritePresentValue (ipAddress (statics w)) (n ob) (Plain (c2f value)) in
  run net (DzkZoneAccessory.setHeatingThresholdTemperature value w)
  = (write_outcome net "setHeatingThresholdTemperature" (write heat) w,
     Returned tt) /\
  run net (DzkZoneAccessory.setCoolingThresholdTemperature value w)
  = (write_outcome net "setCoolingThresholdTemperature" (write cold) w,
     Returned tt) /\
  run net (DzkZoneAccessory.setTargetTemperature value w)
  = (write_outcome net "setTargetTemperature"
       (write (if Qgtb (lastDemand (dzkz w)) 0 then heat else cold)) w,
     Returned tt) /\
  forall op req,
    internalStates (write_outcome net op req w) = internalStates w /\
    statics (write_outcome net op req w) = statics w /\
    dzkz (write_outcome net op req w) = dzkz w.
Proof.
  intros Hsc Hh Hc write. unfold write, write_outcome.
  repeat match goal with |- _ /\ _ => split end.
  - unfold_handlers. unfold DzkZone.setZonePv, DzkZone.object_string.
    cbn [statics dzkz DzkZoneAccessory.callback log_event].
    rewrite Hsc, Hh. cbn -[c2f app]. now destruct (net _).
  - unfold_handlers. unfold DzkZone.setZonePv, DzkZone.object_string.
    cbn [statics dzkz DzkZoneAccessory.callback log_event].
    rewrite Hsc, Hc. cbn -[c2f app]. now destruct (net _).
  - unfold_handlers. unfold DzkZone.setZonePv, DzkZone.object_string.
    cbn [statics dzkz DzkZoneAccessory.callback log_event].
    rewrite Hsc. destruct (Qgtb (lastDemand (dzkz w)) 0);
      [rewrite Hh|rewrite Hc]; cbn -[c2f app]; now destruct (net _).
  - intros op req. now destruct (net req).
Qed.

(** X7.  The target-state setter acknowledges first and writes to the
    global operation mode (MO:0) the device mode that stands for the
    request, as an unsigned integer; that mode is always AUTO, COOL or HEAT,
    and a request for OFF, like any unknown number, writes AUTO.  When the
    write is accepted the shared mode becomes the mode written (the value
    in the reply is not looked at) and the cache shows its HAP state: the
    state asked for when that was HEAT or COOL, and AUTO otherwise, so
    never OFF.  When the write is rejected neither the shared mode nor the
    cache changes and the error is logged.  The zone's scope plays no
    part. *)
Theorem setTargetHeatingCoolingState_write
        (net : pv_request -> reply) (w : World) (value : number) :
  let mode := DzkZone.from_hap_target_heatcool_state value in
  let req :=
    WritePresentValue (ipAddress (statics w)) "MO:0"
                      (ValueObject BACNET_APPLICATION_TAG_UNSIGNED_INT mode) in
  let w1 := log_event (Request req) (DzkZoneAccessory.callback None None w) in
  In mode [DzkOperationMode.AUTO; DzkOperationMode.COOL;
           DzkOperationMode.HEAT] /\
  (value == TargetHeatingCoolingState.OFF -> mode = DzkOperationMode.AUTO) /\
  (forall v, net req = Resolved v ->
     run net (DzkZoneAccessory.setTargetHeatingCoolingState value w)
     = (DzkZoneAccessory.assign
          set_targetHeatingCoolingState
          (DzkZone.to_hap_target_heatcool_state mode)
          (set_dzk_opmode mode w1),
        Returned tt)) /\
  (forall e, net req = Rejected e ->
     run net (DzkZoneAccessory.setTargetHeatingCoolingState value w)
     = (DzkZoneAccessory.log_error "setTargetHeatingCoolingState" e w1,
        Returned tt)) /\
  (value == TargetHeatingCoolingState.HEAT ->
   DzkZone.to_hap_target_heatcool_state mode
   = TargetHeatingCoolingState.HEAT) /\
  (value == TargetHeatingCoolingState.COOL ->
   DzkZone.to_hap_target_heatcool_state mode
   = TargetHeatingCoolingState.COOL) /\
  (~ value == TargetHeatingCoolingState.HEAT ->
   ~ value == TargetHeatingCoolingState.COOL ->
   DzkZone.to_hap_target_heatcool_state mode
   = TargetHeatingCoolingState.AUTO).
Proof.
  intros mode req w1.
  repeat match goal with |- _ /\ _ => split end.
  - unfold mode, DzkZone.from_hap_target_heatcool_state.
    repeat match goal with
           | |- context [Qeq_bool ?a ?b] => destruct (Qeq_bool a b)
           end; simpl; tauto.
  - intro H. unfold mode, DzkZone.from_hap_target_heatcool_state.
    now rewrite !(Qeqb_comp _ _ H _ _ (Qeq_refl _)).
  - intros v Hv. unfold_handlers. rewrite setGlobalPv_operation_mode.
    run_step. fold mode. fold req. rewrite Hv. reflexivity.
  - intros e He. unfold_handlers. rewrite setGlobalPv_operation_mode.
    run_step. fold mode. fold req. rewrite He. reflexivity.
  - intro H. unfold mode, DzkZone.from_hap_target_heatcool_state.
    now rewrite !(Qeqb_comp _ _ H _ _ (Qeq_refl _)).
  - intro H. unfold mode, DzkZone.from_hap_target_heatcool_state.
    now rewrite !(Qeqb_comp _ _ H _ _ (Qeq_refl _)).
  - intros HH HC. apply Qeq_bool_false_iff in HH, HC.
    unfold mode, DzkZone.from_hap_target_heatcool_state.
    rewrite HH, HC.
    repeat match goal with
           | |- context [Qeq_bool ?a ?b] => destruct (Qeq_bool a b)
           end; reflexivity.
Qed.

(** ** The shared mode, seen from every zone *)

Lemma getTargetTemperature_known_mode (s : Statics) (this : DzkZone) (k : Z) :
  (1 <= k <= 6)%Z ->
  dzkob this = zone_scope k ->
  In (dzk_opmode s) [DzkOperationMode.AUTO; DzkOperationMode.COOL;
                     DzkOperationMode.HEAT] ->
  exists sc key ob,
    dzkob this = Some sc /\
    (key = "heat-set-point" \/ key = "cold-set-point") /\
    prop sc key = Some ob /\
    DzkZone.getTargetTemperature s this
    = Returned (ReadPresentValue (ipAddress s) (n ob)).
Proof.
  intros Hk Hob Hm.
  destruct (zone_scope_in_range k Hk) as [sc Hsc].
  destruct (zone_scope_keys k sc Hsc) as (_ & [heat Hh] & [cold Hc] & _).
  rewrite Hsc in Hob.
  assert (R : forall key ob,
             prop sc key = Some ob ->
             DzkZone.getZonePv s this key
             = Returned (ReadPresentValue (ipAddress s) (n ob))).
  { intros key ob Hkey. unfold DzkZone.getZonePv, DzkZone.object_string.
    now rewrite Hob, Hkey. }
  unfold DzkZone.getTargetTemperature.
  destruct Hm as [Hm|[Hm|[Hm|[]]]]; rewrite <- Hm.
  - unfold DzkZone.bac_ob. cbn -[Qgtb].
    destruct (Qgtb (lastDemand this) 0).
    + exists sc, "heat-set-point", heat. repeat split; auto.
    + exists sc, "cold-set-point", cold. repeat split; auto.
  - exists sc, "cold-set-point", cold. repeat split; auto.
  - exists sc, "heat-set-point", heat. repeat split; auto.
Qed.

(** X8.  Once a target-state write has been accepted, through whichever
    accessory, the target temperature of every zone 1..6 that shares the
    statics resolves to a read of that zone's heat or cold set point: the
    call cannot throw for want of a mode.  The other zone needs no write
    and no fetch of its own. *)
Theorem accepted_mode_write_serves_every_zone
        (net : pv_request -> reply) (w : World) (value v : number)
        (this : DzkZone) (k : Z) :
  net (WritePresentValue
         (ipAddress (statics w)) "MO:0"
         (ValueObject BACNET_APPLICATION_TAG_UNSIGNED_INT
                      (DzkZone.from_hap_target_heatcool_state value)))
  = Resolved v ->
  (1 <= k <= 6)%Z ->
  dzkob this = zone_scope k ->
  let shared :=
    statics (perform net (SetTargetHeatingCoolingState value) w) in
  dzk_opmode shared = DzkZone.from_hap_target_heatcool_state value /\
  exists sc key ob,
    dzkob this = Some sc /\
    (key = "heat-set-point" \/ key = "cold-set-point") /\
    prop sc key = Some ob /\
    DzkZone.getTargetTemperature shared this
    = Returned (ReadPresentValue (ipAddress (statics w)) (n ob)).
Proof.
  intros Hnet Hk Hob shared.
  assert (E : shared
              = mkStatics (ipAddress (statics w))
                          (DzkZone.from_hap_target_heatcool_state value)).
  { unfold shared. unfold_handlers. rewrite setGlobalPv_operation_mode.
    run_step. rewrite Hnet. reflexivity. }
  rewrite E. split; [reflexivity|].
  assert (M : In (DzkZone.from_hap_target_heatcool_state value)
                 [DzkOperationMode.AUTO; DzkOperationMode.COOL;
                  DzkOperationMode.HEAT]).
  { unfold DzkZone.from_hap_target_heatcool_state.
    repeat match goal with
           | |- context [Qeq_bool ?a ?b] => destruct (Qeq_bool a b)
           end; simpl; tauto. }
  exact (getTargetTemperature_known_mode
           (mkStatics (ipAddress (statics w))
                      (DzkZone.from_hap_target_heatcool_state value))
           this k Hk Hob M).
Qed.

(** X9.  The fetch of the global mode stores whatever number the device
    reports, unchecked.  The cache then shows the HAP state of that number;
    for a number that is no device mode this is OFF, and with such a number
    in the shared mode the target temperature of every zone throws. *)
Theorem mode_fetch_stores_the_reply
        (net : pv_request -> reply) (w : World) (v : number) :
  net (ReadPresentValue (ipAddress (statics w)) "MO:0") = Resolved v ->
  let w' := perform net (Get GetTargetHeatingCoolingState) w in
  dzk_opmode (statics w') = v /\
  targetHeatingCoolingState (internalStates w')
  = DzkZone.to_hap_target_heatcool_state v /\
  (~ v == DzkOperationMode.AUTO -> ~ v == DzkOperationMode.COOL ->
   ~ v == DzkOperationMode.HEAT -> ~ v == DzkOperationMode.DRY ->
   targetHeatingCoolingState (internalStates w')
   = TargetHeatingCoolingState.OFF /\
   forall this zone,
     dzkob this = zone_scope zone ->
     DzkZone.getTargetTemperature (statics w') this = Threw TypeError).
Proof.
  intros Hnet w'.
  assert (E : w' = DzkZoneAccessory.assign
                     set_targetHeatingCoolingState
                     (DzkZone.to_hap_target_heatcool_state v)
                     (set_dzk_opmode v
                        (log_event
                           (Request (ReadPresentValue
                                       (ipAddress (statics w)) "MO:0"))
                           (DzkZoneAccessory.callback
                              None
                              (Some (targetHeatingCoolingState
                                       (internalStates w))) w)))).
  { unfold w'. unfold_handlers. rewrite getGlobalPv_operation_mode.
    run_step. rewrite Hnet. reflexivity. }
  rewrite E. split; [reflexivity|]. split; [reflexivity|].
  intros HA HC HH HD. split.
  - cbn -[DzkZone.to_hap_target_heatcool_state].
    unfold DzkZone.to_hap_target_heatcool_state.
    apply Qeq_bool_false_iff in HA, HC, HH, HD.
    now rewrite HA, HC, HH, HD.
  - intros this zone Hob.
    unfold DzkZone.getTargetTemperature.
    cbn [statics DzkZoneAccessory.assign set_internalStates set_dzk_opmode
                 dzk_opmode].
    rewrite bac_ob_other by assumption.
    unfold DzkZone.getZonePv, DzkZone.object_string. rewrite Hob.
    destruct (zone_scope zone) as [sc|] eqn:Hsc; [|reflexivity].
    now rewrite (proj1 (zone_scope_keys _ _ Hsc)).
Qed.

(** X10.  The fan state is read from the global fan object (BV:0),
    whatever the zone; a reply of zero is cached as INACTIVE and every other
    reply as BLOWING_AIR, so that the cache never shows IDLE after a
    refresh. *)
Theorem fan_state_refresh
        (net : pv_request -> reply) (w : World) (v : number) :
  net (ReadPresentValue (ipAddress (statics w)) "BV:0") = Resolved v ->
  let w' := perform net (Get GetCurrentFanState) w in
  trace w'
  = (trace w ++ [Callback None (Some (currentFanState (internalStates w)));
                 Request (ReadPresentValue (ipAddress (statics w)) "BV:0")])%list
  /\
  (v == 0 -> currentFanState (internalStates w') = CurrentFanState.INACTIVE) /\
  (~ v == 0 ->
   currentFanState (internalStates w') = CurrentFanState.BLOWING_AIR) /\
  ~ currentFanState (internalStates w') == CurrentFanState.IDLE.
Proof.
  intros Hnet w'.
  assert (E : currentFanState (internalStates w') = DzkZone.to_hap_fanstate v
              /\ trace w'
                 = (trace w
                      ++ [Callback None
                                   (Some (currentFanState (internalStates w)));
                          Request (ReadPresentValue
                                     (ipAddress (statics w)) "BV:0")])%list).
  { unfold w'. unfold_handlers. rewrite getGlobalPv_global_fan.
    run_step. rewrite Hnet. run_step.
    split; [reflexivity|]. now rewrite <- app_assoc. }
  destruct E as [E T]. rewrite E. split; [exact T|].
  unfold DzkZone.to_hap_fanstate. repeat split.
  - intro H. apply Qeq_bool_iff in H. now rewrite H.
  - intro H. apply Qeq_bool_false_iff in H. now rewrite H.
  - destruct (Qeq_bool v 0); intro H; vm_compute in H; discriminate.
Qed.

(** ** Demand, once more *)

(** X11.  For any two numbers the demand reads answer, negative ones
    included: the state is HEAT exactly when only the heating demand is
    positive, COOL exactly when only the cooling demand is positive, and OFF
    in every other case; [lastDemand] becomes [hd - cd] when one of them is
    positive and keeps its value otherwise; the statics and the cache are
    not touched. *)
Theorem demand_state_characterisation
        (net : pv_request -> reply) (w : World)
        (rh rc : pv_request) (hd cd : number) :
  DzkZone.getZonePv (statics w) (dzkz w) "heating-demand" = Returned rh ->
  DzkZone.getZonePv (statics w) (dzkz w) "cooling-demand" = Returned rc ->
  net rh = Resolved hd ->
  net rc = Resolved cd ->
  exists w' rv,
    run net (DzkZone.getCurrentHeatingCoolingState w) = (w', Returned rv) /\
    (rv = CurrentHeatingCoolingState.HEAT <-> 0 < hd /\ cd <= 0) /\
    (rv = CurrentHeatingCoolingState.COOL <-> 0 < cd /\ hd <= 0) /\
    (rv = CurrentHeatingCoolingState.OFF
     <-> (hd <= 0 /\ cd <= 0) \/ (0 < hd /\ 0 < cd)) /\
    (0 < hd \/ 0 < cd -> lastDemand (dzkz w') = hd - cd) /\
    (hd <= 0 /\ cd <= 0 -> lastDemand (dzkz w') = lastDemand (dzkz w)) /\
    statics w' = statics w /\
    internalStates w' = internalStates w /\
    trace w' = (trace w ++ [Request rh; Request rc])%list.
Proof.
  intros Hh Hc Nh Nc.
  rewrite (run_getCurrentHeatingCoolingState net w rh rc hd cd Hh Hc Nh Nc).
  eexists _, _. split; [reflexivity|].
  destruct (lastDemand_assignment_spec hd cd) as [Hrun Hskip].
  unfold CurrentHeatingCoolingState.HEAT, CurrentHeatingCoolingState.COOL,
    CurrentHeatingCoolingState.OFF.
  split; [|split; [|split; [|split; [|split; [|split; [|split]]]]]].
  1-3: destruct (Qgtb hd 0) eqn:Eh; destruct (Qgtb cd 0) eqn:Ec;
    [apply Qgtb_true_iff in Eh|apply Qgtb_true_iff in Eh
     |apply Qgtb_false_iff in Eh|apply Qgtb_false_iff in Eh];
    [apply Qgtb_true_iff in Ec|apply Qgtb_false_iff in Ec
     |apply Qgtb_true_iff in Ec|apply Qgtb_false_iff in Ec];
    cbn; (split;
          [intro H; try discriminate; repeat split; auto; lra
          |intro H; try reflexivity; exfalso; lra]).
  - intro H. cbv zeta. now rewrite (Hrun H).
  - intro H. cbv zeta. now rewrite (Hskip H).
  - cbv zeta. now destruct (DzkZone.lastDemand_assignment hd cd).
  - cbv zeta. now destruct (DzkZone.lastDemand_assignment hd cd).
  - cbv zeta. destruct (DzkZone.lastDemand_assignment hd cd); simpl;
      now rewrite <- app_assoc.
Qed.

(** X12.  A demand read that fails stops the call there.  If the zone has
    no heating-demand object the call throws before any request.  If the
    heating read is rejected, the cooling demand is never asked for.  If the
    heating read answers and the cooling read is rejected, the heating value
    is dropped.  In all three cases [lastDemand] keeps its value. *)
Theorem demand_read_failure (net : pv_request -> reply) (w : World) :
  (forall e,
      DzkZone.getZonePv (statics w) (dzkz w) "heating-demand" = Threw e ->
      run net (DzkZone.getCurrentHeatingCoolingState w) = (w, Threw e)) /\
  (forall rh e,
      DzkZone.getZonePv (statics w) (dzkz w) "heating-demand" = Returned rh ->
      net rh = Rejected e ->
      run net (DzkZone.getCurrentHeatingCoolingState w)
      = (log_event (Request rh) w, Threw e)) /\
  (forall rh rc hd e,
      DzkZone.getZonePv (statics w) (dzkz w) "heating-demand" = Returned rh ->
      DzkZone.getZonePv (statics w) (dzkz w) "cooling-demand" = Returned rc ->
      net rh = Resolved hd ->
      net rc = Rejected e ->
      run net (DzkZone.getCurrentHeatingCoolingState w)
      = (log_event (Request rc) (log_event (Request rh) w), Threw e)).
Proof.
  unfold DzkZone.getCurrentHeatingCoolingState.
  split; [|split].
  - intros e H. rewrite run_bind, run_await, H. reflexivity.
  - intros rh e H N. rewrite run_bind, run_await, H, N. reflexivity.
  - intros rh rc hd e Hh Hc Nh Nc.
    rewrite run_bind, run_await, Hh, Nh.
    rewrite run_bind, run_await. simpl statics. simpl dzkz.
    rewrite Hc, Nc. reflexivity.
Qed.

(** X13.  From demand to target temperature: in a zone 1..6 with the
    global mode AUTO or DRY, once a demand refresh has seen a positive
    demand, the target temperature reads the heat set point if the heating
    demand was the larger one and the cold set point otherwise; if neither
    demand was positive the choice still follows the [lastDemand] from
    before. *)
Theorem demand_steers_target_temperature
        (net : pv_request -> reply) (w : World) (k : Z)
        (rh rc : pv_request) (hd cd : number) :
  (1 <= k <= 6)%Z ->
  dzkob (dzkz w) = zone_scope k ->
  dzk_opmode (statics w) == DzkOperationMode.AUTO
  \/ dzk_opmode (statics w) == DzkOperationMode.DRY ->
  DzkZone.getZonePv (statics w) (dzkz w) "heating-demand" = Returned rh ->
  DzkZone.getZonePv (statics w) (dzkz w) "cooling-demand" = Returned rc ->
  net rh = Resolved hd ->
  net rc = Resolved cd ->
  let w' := fst (run net (DzkZone.getCurrentHeatingCoolingState w)) in
  let target := DzkZone.getTargetTemperature (statics w') (dzkz w') in
  (0 < hd \/ 0 < cd ->
   (cd < hd -> target = DzkZone.getHeatSetpoint (statics w) (dzkz w)) /\
   (hd <= cd -> target = DzkZone.getCoolSetpoint (statics w) (dzkz w))) /\
  (hd <= 0 /\ cd <= 0 ->
   target = DzkZone.getTargetTemperature (statics w) (dzkz w)) /\
  exists sc heat cold,
    zone_scope k = Some sc /\
    prop sc "heat-set-point" = Some heat /\
    prop sc "cold-set-point" = Some cold /\
    DzkZone.getHeatSetpoint (statics w) (dzkz w)
    = Returned (ReadPresentValue (ipAddress (statics w)) (n heat)) /\
    DzkZone.getCoolSetpoint (statics w) (dzkz w)
    = Returned (ReadPresentValue (ipAddress (statics w)) (n cold)).
Proof.
  intros Hk Hob Hm Hh Hc Nh Nc w' target.
  unfold target, w'.
  rewrite (run_getCurrentHeatingCoolingState net w rh rc hd cd Hh Hc Nh Nc).
  destruct (lastDemand_assignment_spec hd cd) as [Hrun Hskip].
  cbv zeta. cbn [fst].
  split; [|split].
  - intro Hp. rewrite (Hrun Hp).
    unfold DzkZone.getTargetTemperature, DzkZone.getHeatSetpoint,
      DzkZone.getCoolSetpoint.
    cbn [statics dzkz set_lastDemand log_event lastDemand].
    rewrite (bac_ob_AUTO_DRY _ _ Hm).
    split; intro Hcmp.
    + assert (G : Qgtb (hd - cd) 0 = true) by (apply Qgtb_true_iff; lra).
      rewrite G. reflexivity.
    + assert (G : Qgtb (hd - cd) 0 = false) by (apply Qgtb_false_iff; lra).
      rewrite G. reflexivity.
  - intro Hz. rewrite (Hskip Hz). reflexivity.
  - destruct (zone_scope_in_range k Hk) as [sc Hsc].
    destruct (zone_scope_keys k sc Hsc) as (_ & [heat Hheat] & [cold Hcold] & _).
    exists sc, heat, cold. repeat split; try assumption;
      unfold DzkZone.getHeatSetpoint, DzkZone.getCoolSetpoint,
        DzkZone.getZonePv, DzkZone.object_string;
      rewrite Hob, Hsc; [now rewrite Hheat|now rewrite Hcold].
Qed.

(** ** A zone the directory does not have *)

(** X14.  In an accessory whose zone has no scope in the directory, every
    operation that goes through the zone's scope (six of the getters and
    the three set-point writers) answers the callback, sends nothing to the
    network, logs a [TypeError] and changes nothing else, whatever the
    network would have answered.  The fan-state and target-state operations
    do not depend on the scope. *)
Theorem zone_without_scope
        (net : pv_request -> reply) (o : operation) (w : World) :
  dzkob (dzkz w) = None ->
  zone_scoped o = true ->
  exists v op,
    perform net o w
    = DzkZoneAccessory.log_error op TypeError
                                 (DzkZoneAccessory.callback None v w) /\
    trace (perform net o w)
    = (trace w ++ [Callback None v;
                   LogError op (DzkZoneConfig.zone (device w)) TypeError])%list
    /\
    internalStates (perform net o w) = internalStates w /\
    statics (perform net o w) = statics w /\
    dzkz (perform net o w) = dzkz w.
Proof.
  intros Hnone Hz.
  assert (G : forall id, DzkZone.getZonePv (statics w) (dzkz w) id
                         = Threw TypeError).
  { intro id. unfold DzkZone.getZonePv, DzkZone.object_string.
    now rewrite Hnone. }
  assert (S : forall id val, DzkZone.setZonePv (statics w) (dzkz w) id val
                             = Threw TypeError).
  { intros id val. unfold DzkZone.setZonePv, DzkZone.object_string.
    now rewrite Hnone. }
  destruct o as [g| | | | | |]; [destruct g|..]; try discriminate;
    unfold_handlers;
    cbn [statics dzkz DzkZoneAccessory.callback log_event];
    rewrite ?G, ?S; run_step;
    eexists _, _; (split; [reflexivity|]);
    (split; [now rewrite <- app_assoc|]); repeat split.
Qed.

(** ** Addresses *)

Lemma prop_In {A : Type} (o : list (string * A)) (key : string) (v : A) :
  prop o key = Some v -> In (key, v) o.
Proof.
  induction o as [|[k x] rest IH]; simpl; [discriminate|].
  destruct (String.eqb_spec k key) as [->|Hne].
  - intro H. injection H as ->. now left.
  - intro H. right. now apply IH.
Qed.

Lemma distinct_NoDup (l : list string) : distinct l = true -> NoDup l.
Proof.
  induction l as [|x rest IH]; simpl; [constructor|].
  intro H. apply andb_true_iff in H. destruct H as [Hx Hr].
  constructor; [|now apply IH].
  intro Hin. apply negb_true_iff in Hx.
  assert (E : existsb (String.eqb x) rest = true).
  { apply existsb_exists. exists x. split; [exact Hin|apply String.eqb_refl]. }
  congruence.
Qed.

Lemma NoDup_map_injective {A B : Type} (f : A -> B) (l : list A) (a b : A) :
  NoDup (map f l) -> In a l -> In b l -> f a = f b -> a = b.
Proof.
  induction l as [|x rest IH]; simpl; [contradiction|].
  intros H Ha Hb E. inversion H as [|? ? Hx Hrest]; subst.
  destruct Ha as [->|Ha], Hb as [->|Hb]; auto.
  - exfalso. apply Hx. rewrite E. now apply in_map.
  - exfalso. apply Hx. rewrite <- E. now apply in_map.
Qed.

Lemma directory_objects_distinct :
  NoDup (map (fun e => snd e) directory_entries).
Proof. apply distinct_NoDup. vm_compute. reflexivity. Qed.

Lemma getZonePv_entry (s : Statics) (this : DzkZone) (k : Z) (id : string)
      (address object : string) :
  dzkob this = zone_scope k ->
  DzkZone.getZonePv s this id = Returned (ReadPresentValue address object) ->
  In (k, id, object) directory_entries.
Proof.
  intros Hob H. unfold DzkZone.getZonePv, DzkZone.object_string in H.
  rewrite Hob in H.
  destruct (zone_scope k) as [sc|] eqn:Hsc; [|discriminate].
  destruct (prop sc id) as [ob|] eqn:Hid; [|discriminate].
  injection H as _ <-.
  unfold directory_entries. apply in_or_app. right.
  apply in_flat_map. exists k. split.
  - pose proof (zone_scope_defined _ _ Hsc) as R. simpl.
    assert (C : (k = 1 \/ k = 2 \/ k = 3 \/ k = 4 \/ k = 5 \/ k = 6)%Z) by lia.
    intuition.
  - unfold zone_entries. rewrite Hsc. unfold scope_entries.
    apply (in_map (fun p => (k, fst p, n (snd p))) sc (id, ob)).
    now apply prop_In.
Qed.

Lemma getGlobalPv_entry (s : Statics) (id : string) (address object : string) :
  DzkZone.getGlobalPv s id = Returned (ReadPresentValue address object) ->
  In (0%Z, id, object) directory_entries.
Proof.
  intro H. unfold DzkZone.getGlobalPv, DzkZone.object_string in H.
  change (prop dzk_objects.table "global") with (Some dzk_objects.global) in H.
  cbv beta iota in H.
  destruct (prop dzk_objects.global id) as [ob|] eqn:Hid; [|discriminate].
  injection H as _ <-.
  unfold directory_entries. apply in_or_app. left.
  unfold scope_entries.
  apply (in_map (fun p => (0%Z, fst p, n (snd p))) dzk_objects.global (id, ob)).
  now apply prop_In.
Qed.

(** X15.  The directory addresses each object once: two reads that reach
    the same object come from the same zone and the same key, two global
    reads of the same object use the same key, and no read through a zone
    reaches an object of the global scope.  So no zone can read or refresh
    from another zone's objects. *)
Theorem addressing_is_injective (s : Statics) :
  (forall this1 this2 k1 k2 id1 id2 req,
      dzkob this1 = zone_scope k1 ->
      dzkob this2 = zone_scope k2 ->
      DzkZone.getZonePv s this1 id1 = Returned req ->
      DzkZone.getZonePv s this2 id2 = Returned req ->
      k1 = k2 /\ id1 = id2) /\
  (forall id1 id2 req,
      DzkZone.getGlobalPv s id1 = Returned req ->
      DzkZone.getGlobalPv s id2 = Returned req ->
      id1 = id2) /\
  (forall this k id id' req,
      dzkob this = zone_scope k ->
      DzkZone.getGlobalPv s id = Returned req ->
      DzkZone.getZonePv s this id' <> Returned req).
Proof.
  pose proof directory_objects_distinct as D.
  split; [|split].
  - intros this1 this2 k1 k2 id1 id2 req H1 H2 R1 R2.
    assert (Hreq : exists a o, req = ReadPresentValue a o).
    { unfold DzkZone.getZonePv in R1.
      destruct (DzkZone.object_string _ _); [discriminate|].
      injection R1 as <-. eauto. }
    destruct Hreq as (a & o & ->).
    pose proof (getZonePv_entry _ _ _ _ _ _ H1 R1) as E1.
    pose proof (getZonePv_entry _ _ _ _ _ _ H2 R2) as E2.
    pose proof (NoDup_map_injective _ _ _ _ D E1 E2 eq_refl) as E.
    now inversion E.
  - intros id1 id2 req R1 R2.
    assert (Hreq : exists a o, req = ReadPresentValue a o).
    { unfold DzkZone.getGlobalPv in R1.
      destruct (DzkZone.object_string _ _); [discriminate|].
      injection R1 as <-. eauto. }
    destruct Hreq as (a & o & ->).
    pose proof (getGlobalPv_entry _ _ _ _ R1) as E1.
    pose proof (getGlobalPv_entry _ _ _ _ R2) as E2.
    pose proof (NoDup_map_injective _ _ _ _ D E1 E2 eq_refl) as E.
    now inversion E.
  - intros this k id id' req Hob R1 R2.
    assert (Hreq : exists a o, req = ReadPresentValue a o).
    { unfold DzkZone.getGlobalPv in R1.
      destruct (DzkZone.object_string _ _); [discriminate|].
      injection R1 as <-. eauto. }
    destruct Hreq as (a & o & ->).
    pose proof (getGlobalPv_entry _ _ _ _ R1) as E1.
    pose proof (getZonePv_entry _ _ _ _ _ _ Hob R2) as E2.
    pose proof (NoDup_map_injective _ _ _ _ D E1 E2 eq_refl) as E.
    inversion E as [[Hk Hid]].
    unfold DzkZone.getZonePv, DzkZone.object_string in R2. rewrite Hob in R2.
    destruct (zone_scope k) as [sc|] eqn:Hsc; [|discriminate].
    pose proof (zone_scope_defined _ _ Hsc). lia.
Qed.

(** ** Construction, in a loop *)

(** The accessory a construction leaves, in closed form. *)
Lemma constructor_closed_form
      (dzkconfig : DzkConfig.t) (device : DzkZoneConfig.t)
      (s : Statics) (tr : list event) :
  let s1 :=
    if String.eqb (ipAddress s) ""
    then mkStatics (DzkConfig.ipAddress dzkconfig) (dzk_opmode s) else s in
  let w :=
    mkWorld s1
            (mkZone (DzkZoneConfig.zone device)
                    (zone_scope (DzkZoneConfig.zone device)) 0)
            InternalStates_initial device tr in
  DzkZoneAccessory.constructor dzkconfig device s tr
  = Returned
      (if Qeq_bool (dzk_opmode s) (-1)
       then (log_event (Request (ReadPresentValue (ipAddress s1) "MO:0")) w,
             Some (DzkZone.getTargetHeatingCoolingState w))
       else (w, None)).
Proof.
  unfold DzkZoneAccessory.constructor, DzkZone.constructor. cbv zeta.
  rewrite directory_zone_lookup. cbn [statics].
  destruct (String.eqb (ipAddress s) ""); cbn [dzk_opmode];
    destruct (Qeq_bool (dzk_opmode s) (-1)); reflexivity.
Qed.

Lemma construct_all_cons
      (dzkconfig : DzkConfig.t) (device : DzkZoneConfig.t)
      (rest : list (DzkConfig.t * DzkZoneConfig.t))
      (s : Statics) (tr : list event) :
  exists w p,
    DzkZoneAccessory.constructor dzkconfig device s tr = Returned (w, p) /\
    construct_all ((dzkconfig, device) :: rest) s tr
    = (fst (fst (construct_all rest (statics w) (trace w))),
       snd (fst (construct_all rest (statics w) (trace w))),
       (w, p) :: snd (construct_all rest (statics w) (trace w))).
Proof.
  destruct (constructor_statics dzkconfig device s tr) as (w & p & Hc & _).
  exists w, p. split; [exact Hc|]. simpl. rewrite Hc.
  now destruct (construct_all rest (statics w) (trace w)) as [[s' tr'] ws].
Qed.

(** X18.  The loop over the configured zones builds one accessory per
    entry, each with the default cache, its own configuration, the scope of
    its zone number and [lastDemand = 0], and leaves the shared mode as it
    found it.  While the mode is still the sentinel [-1] every construction
    of the loop, not only the first, sends its own fetch of the global mode
    and drops its promise; once the mode is known no construction sends
    anything. *)
Theorem every_construction_fetches_the_mode
        (cs : list (DzkConfig.t * DzkZoneConfig.t))
        (s : Statics) (tr : list event) :
  let result := construct_all cs s tr in
  let built := snd result in
  length built = length cs /\
  dzk_opmode (fst (fst result)) = dzk_opmode s /\
  Forall2 (fun c wp =>
             device (fst wp) = snd c /\
             internalStates (fst wp) = InternalStates_initial /\
             dzkz (fst wp)
             = mkZone (DzkZoneConfig.zone (snd c))
                      (zone_scope (DzkZoneConfig.zone (snd c))) 0)
          cs built /\
  (dzk_opmode s == -1 ->
   Forall (fun wp => snd wp <> None) built /\
   exists fetches,
     snd (fst result) = (tr ++ fetches)%list /\
     length fetches = length cs /\
     Forall (fun ev => is_mode_fetch ev = true) fetches) /\
  (~ dzk_opmode s == -1 ->
   Forall (fun wp => snd wp = None) built /\
   snd (fst result) = tr).
Proof.
  cbv zeta. revert s tr.
  induction cs as [|[dzkconfig device] rest IH]; intros s tr.
  - simpl. split; [reflexivity|]. split; [reflexivity|].
    split; [constructor|]. split.
    + intros _. split; [constructor|]. exists []. rewrite app_nil_r.
      split; [reflexivity|]. split; [reflexivity|constructor].
    + intros _. split; [constructor|reflexivity].
  - destruct (construct_all_cons dzkconfig device rest s tr)
      as (w & p & Hc & ->).
    pose proof (constructor_closed_form dzkconfig device s tr) as K.
    cbv zeta in K. rewrite Hc in K.
    set (s1 := if String.eqb (ipAddress s) "" then _ else s) in K.
    assert (Hs1 : dzk_opmode s1 = dzk_opmode s)
      by (unfold s1; now destruct (String.eqb (ipAddress s) "")).
    destruct (IH (statics w) (trace w)) as (Hl & Hm & Hf & Hyes & Hno).
    cbn [fst snd].
    destruct (Qeq_bool (dzk_opmode s) (-1)) eqn:E;
      injection K as -> ->; cbn [statics trace log_event] in *.
    + split; [simpl; now rewrite Hl|]. split; [now rewrite Hm|].
      split; [constructor; [repeat split|exact Hf]|].
      split.
      * intros _.
        assert (E' : dzk_opmode s1 == -1) by (rewrite Hs1; now apply Qeq_bool_iff).
        destruct (Hyes E') as (Hsome & fetches & Ht & Hlen & Hall).
        split; [constructor; [discriminate|exact Hsome]|].
        exists (Request (ReadPresentValue (ipAddress s1) "MO:0") :: fetches).
        split; [rewrite Ht; now rewrite <- app_assoc|].
        split; [simpl; now rewrite Hlen|].
        constructor; [reflexivity|exact Hall].
      * intro N. apply Qeq_bool_iff in E. contradiction.
    + split; [simpl; now rewrite Hl|]. split; [now rewrite Hm|].
      split; [constructor; [repeat split|exact Hf]|].
      split.
      * intro Y. apply Qeq_bool_iff in Y. congruence.
      * intro N.
        assert (N' : ~ dzk_opmode s1 == -1) by now rewrite Hs1.
        destruct (Hno N') as (Hnone & Ht).
        split; [constructor; [reflexivity|exact Hnone]|exact Ht].
Qed.





(** ** Promises that settle later *)

(** X20.  When the mode fetch started by a constructor is answered, the
    shared mode takes the reported number and nothing is logged; but the
    accessory's cache is not part of that fetch: it keeps the defaults, and
    the first target-state request of homebridge is still answered with
    OFF. *)
Theorem eager_fetch_fills_mode_not_cache
        (dzkconfig : DzkConfig.t) (device : DzkZoneConfig.t)
        (s : Statics) (tr : list event)
        (net : pv_request -> reply) (v : number) :
  dzk_opmode s == -1 ->
  (forall address, net (ReadPresentValue address "MO:0") = Resolved v) ->
  exists w p,
    DzkZoneAccessory.constructor dzkconfig device s tr = Returned (w, Some p) /\
    let w' := settle_floating net p in
    dzk_opmode (statics w') = v /\
    trace w' = trace w /\
    internalStates w' = InternalStates_initial /\
    exists rest,
      trace (world_of (handler GetTargetHeatingCoolingState w'))
      = (trace w' ++ Callback None (Some TargetHeatingCoolingState.OFF)
               :: rest)%list.
Proof.
  intros Hm Hnet.
  pose proof (constructor_closed_form dzkconfig device s tr) as K.
  cbv zeta in K. apply Qeq_bool_iff in Hm. rewrite Hm in K.
  eexists _, _. split; [exact K|]. cbv zeta.
  assert (E : forall w0,
             settle_floating net (DzkZone.getTargetHeatingCoolingState w0)
             = set_dzk_opmode
                 v (log_event
                      (Request (ReadPresentValue (ipAddress (statics w0))
                                                 "MO:0")) w0)).
  { intro w0. unfold settle_floating, DzkZone.getTargetHeatingCoolingState.
    rewrite getGlobalPv_operation_mode. simpl. rewrite Hnet. reflexivity. }
  rewrite E.
  split; [reflexivity|]. split; [reflexivity|]. split; [reflexivity|].
  match goal with
  | |- context [handler ?g ?w0] =>
      destruct (handler_synchronous_part g w0) as (_ & rest & Hr & _)
  end.
  exists rest. exact Hr.
Qed.

(** X21.  Two refreshes of the same value may be in flight at once; each
    call has handed the cached value to its callback before either reply is
    in, and the cache ends with the reply that arrives last, whichever call
    it belongs to: here the reply [a] to the first call arrives after the
    reply [b] to the second, and the cache keeps [f2c a]. *)
Theorem refreshes_complete_in_arrival_order
        (w : World) (req : pv_request) (a b : number) :
  DzkZone.getCurrentTemperature (statics w) (dzkz w) = Returned req ->
  let old := currentTemperature (internalStates w) in
  exists w1 k1 w2 k2,
    DzkZoneAccessory.getCurrentTemperature w = Await w1 req k1 /\
    DzkZoneAccessory.getCurrentTemperature w1 = Await w2 req k2 /\
    trace w2
    = (trace w ++ [Callback None (Some old); Request req;
                   Callback None (Some old); Request req])%list /\
    let w3 := world_of (k2 (Resolved b) w2) in
    let w4 := world_of (k1 (Resolved a) w3) in
    currentTemperature (internalStates w3) = f2c b /\
    currentTemperature (internalStates w4) = f2c a /\
    trace w4 = trace w2.
Proof.
  intros Hreq old.
  set (w1 := log_event (Request req)
                       (DzkZoneAccessory.callback None (Some old) w)).
  set (w2 := log_event (Request req)
                       (DzkZoneAccessory.callback None (Some old) w1)).
  assert (Hreq1 : DzkZone.getCurrentTemperature (statics w1) (dzkz w1)
                  = Returned req) by exact Hreq.
  exists w1. eexists. exists w2. eexists.
  split.
  { unfold DzkZoneAccessory.getCurrentTemperature. cbv zeta.
    cbn [statics dzkz DzkZoneAccessory.callback log_event].
    rewrite Hreq. reflexivity. }
  split.
  { unfold DzkZoneAccessory.getCurrentTemperature. cbv zeta.
    cbn [statics dzkz DzkZoneAccessory.callback log_event w1].
    rewrite Hreq. reflexivity. }
  split; [cbn [trace w2 w1 log_event DzkZoneAccessory.callback];
          now rewrite <- !app_assoc|].
  repeat split.
Qed.

(** ** The further properties at concrete inputs *)

(** X3 over the session [evening]: the cached temperature stays at its
    default. *)
Lemma cache_field_owner_witness :
  Forall (fun p => assigns_cache GetCurrentTemperature (snd p) = false)
         evening /\
  currentTemperature (internalStates (perform_all evening den)) = 20.5.
Proof.
  assert (H : Forall (fun p => assigns_cache GetCurrentTemperature (snd p)
                               = false) evening)
    by (repeat constructor).
  split; [exact H|].
  exact (cache_field_owner GetCurrentTemperature evening den H).
Defined.

(** X5 over the session [evening]: Celsius set, Celsius read back. *)
Lemma display_units_roundtrip_witness :
  Forall (fun p => is_set_display_units (snd p) = false) evening /\
  temperatureDisplayUnits
    (internalStates
       (perform_all evening
          (perform silent_unit
                   (SetTemperatureDisplayUnits TemperatureDisplayUnits.CELSIUS)
                   den)))
  = TemperatureDisplayUnits.CELSIUS.
Proof.
  assert (H : Forall (fun p => is_set_display_units (snd p) = false) evening)
    by (repeat constructor).
  split; [exact H|].
  exact (proj1 (proj2 (display_units_roundtrip
                         silent_unit silent_unit
                         TemperatureDisplayUnits.CELSIUS evening den H))).
Defined.

(** X6 at zone 1 with a unit that does not answer: the write of 21 degrees
    Celsius goes out to AV:1 and the cache is as before. *)
Lemma setpoint_writes_witness :
  dzkob (dzkz den) = Some dzk_objects.zone1 /\
  prop dzk_objects.zone1 "heat-set-point"
  = Some (mkOb "AV:1" "Z1 Heat Set Point" "R/W") /\
  prop dzk_objects.zone1 "cold-set-point"
  = Some (mkOb "AV:2" "Z1 Cold Set Point" "R/W") /\
  run silent_unit (DzkZoneAccessory.setHeatingThresholdTemperature 21 den)
  = (write_outcome silent_unit "setHeatingThresholdTemperature"
       (WritePresentValue "192.168.1.50" "AV:1" (Plain (c2f 21))) den,
     Returned tt).
Proof.
  split; [reflexivity|]. split; [reflexivity|]. split; [reflexivity|].
  exact (proj1 (setpoint_writes
                  silent_unit den dzk_objects.zone1
                  (mkOb "AV:1" "Z1 Heat Set Point" "R/W")
                  (mkOb "AV:2" "Z1 Cold Set Point" "R/W") 21
                  eq_refl eq_refl eq_refl)).
Defined.

(** X8: HEAT is set through zone 1 and zone 2 then reads a set point. *)
Lemma accepted_mode_write_serves_every_zone_witness :
  heating_unit
    (WritePresentValue
       (ipAddress (statics den)) "MO:0"
       (ValueObject BACNET_APPLICATION_TAG_UNSIGNED_INT
                    (DzkZone.from_hap_target_heatcool_state
                       TargetHeatingCoolingState.HEAT)))
  = Resolved 0 /\
  (1 <= 2 <= 6)%Z /\
  dzkob (mkZone 2 (zone_scope 2) 0) = zone_scope 2 /\
  dzk_opmode
    (statics (perform heating_unit
                      (SetTargetHeatingCoolingState
                         TargetHeatingCoolingState.HEAT) den))
  = DzkOperationMode.HEAT.
Proof.
  split; [reflexivity|]. split; [lia|]. split; [reflexivity|].
  exact (proj1 (accepted_mode_write_serves_every_zone
                  heating_unit den TargetHeatingCoolingState.HEAT 0
                  (mkZone 2 (zone_scope 2) 0) 2
                  eq_refl ltac:(lia) eq_refl)).
Defined.

(** X9: a unit that reports mode 0 leaves the cache at OFF. *)
Lemma mode_fetch_stores_the_reply_witness :
  heating_unit (ReadPresentValue (ipAddress (statics den)) "MO:0") = Resolved 0
  /\
  dzk_opmode
    (statics (perform heating_unit (Get GetTargetHeatingCoolingState) den))
  = 0.
Proof.
  split; [reflexivity|].
  exact (proj1 (mode_fetch_stores_the_reply heating_unit den 0 eq_refl)).
Defined.

(** X10: a fan reported as 1 is cached as BLOWING_AIR. *)
Lemma fan_state_refresh_witness :
  steady_unit 1 (ReadPresentValue (ipAddress (statics den)) "BV:0") = Resolved 1
  /\
  currentFanState
    (internalStates (perform (steady_unit 1) (Get GetCurrentFanState) den))
  = CurrentFanState.BLOWING_AIR.
Proof.
  split; [reflexivity|].
  apply (proj1 (proj2 (proj2 (fan_state_refresh (steady_unit 1) den 1 eq_refl)))).
  discriminate.
Defined.

(** X11 at zone 1 with heating demand 15 and cooling demand 0. *)
Lemma demand_state_characterisation_witness :
  DzkZone.getZonePv (statics den) (dzkz den) "heating-demand"
  = Returned (ReadPresentValue "192.168.1.50" "AV:16") /\
  DzkZone.getZonePv (statics den) (dzkz den) "cooling-demand"
  = Returned (ReadPresentValue "192.168.1.50" "AV:15") /\
  heating_unit (ReadPresentValue "192.168.1.50" "AV:16") = Resolved 15 /\
  heating_unit (ReadPresentValue "192.168.1.50" "AV:15") = Resolved 0 /\
  exists w',
    run heating_unit (DzkZone.getCurrentHeatingCoolingState den)
    = (w', Returned CurrentHeatingCoolingState.HEAT).
Proof.
  repeat match goal with |- _ /\ _ => split end; try reflexivity.
  destruct (demand_state_characterisation
              heating_unit den
              (ReadPresentValue "192.168.1.50" "AV:16")
              (ReadPresentValue "192.168.1.50" "AV:15")
              15 0 eq_refl eq_refl eq_refl eq_refl)
    as (w' & rv & Hrun & Hheat & _).
  exists w'. rewrite Hrun. f_equal. f_equal.
  apply Hheat. split; [reflexivity|discriminate].
Defined.

(** X13 at zone 1 in mode AUTO: after a heating demand of 15 the target
    temperature reads the heat set point AV:1. *)
Lemma demand_steers_target_temperature_witness :
  (1 <= 1 <= 6)%Z /\
  dzkob (dzkz den) = zone_scope 1 /\
  dzk_opmode (statics den) == DzkOperationMode.AUTO /\
  heating_unit (ReadPresentValue "192.168.1.50" "AV:16") = Resolved 15 /\
  heating_unit (ReadPresentValue "192.168.1.50" "AV:15") = Resolved 0 /\
  (let w' :=
     fst (run heating_unit (DzkZone.getCurrentHeatingCoolingState den)) in
   DzkZone.getTargetTemperature (statics w') (dzkz w')
   = DzkZone.getHeatSetpoint (statics den) (dzkz den)).
Proof.
  split; [lia|]. do 4 (split; [reflexivity|]).
  apply (proj1 (demand_steers_target_temperature
                  heating_unit den 1
                  (ReadPresentValue "192.168.1.50" "AV:16")
                  (ReadPresentValue "192.168.1.50" "AV:15")
                  15 0 ltac:(lia) eq_refl (or_introl (Qeq_refl _))
                  eq_refl eq_refl eq_refl eq_refl));
    [left|]; reflexivity.
Defined.

(** X14 at zone 7: the request for the temperature is answered with the
    default and a [TypeError] is logged; nothing goes to the network. *)
Lemma zone_without_scope_witness :
  dzkob (dzkz attic) = None /\
  zone_scoped (Get GetCurrentTemperature) = true /\
  trace (perform silent_unit (Get GetCurrentTemperature) attic)
  = [ Callback None (Some 20.5);
      LogError "getCurrentTemperature" 7 TypeError ].
Proof.
  split; [reflexivity|]. split; [reflexivity|].
  destruct (zone_without_scope silent_unit (Get GetCurrentTemperature) attic
                               eq_refl eq_refl)
    as (v & op & _ & _ & _).
  reflexivity.
Defined.

(** X20 at the first construction of zone 1 with a unit in mode HEAT. *)
Lemma eager_fetch_fills_mode_not_cache_witness :
  dzk_opmode Statics_initial == -1 /\
  exists w p,
    DzkZoneAccessory.constructor
      (DzkConfig.mk "192.168.1.50" [DzkZoneConfig.mk "den" 1])
      (DzkZoneConfig.mk "den" 1) Statics_initial []
    = Returned (w, Some p) /\
    dzk_opmode (statics (settle_floating (steady_unit 3) p)) = 3 /\
    internalStates (settle_floating (steady_unit 3) p)
    = InternalStates_initial.
Proof.
  split; [reflexivity|].
  destruct (eager_fetch_fills_mode_not_cache
              (DzkConfig.mk "192.168.1.50" [DzkZoneConfig.mk "den" 1])
              (DzkZoneConfig.mk "den" 1) Statics_initial []
              (steady_unit 3) 3 (Qeq_refl _) (fun _ => eq_refl))
    as (w & p & Hc & Hm & _ & Hi & _).
  exists w, p. repeat split; assumption.
Defined.

(** X21 at zone 1: replies 68 and 77 arrive in reverse order. *)
Lemma refreshes_complete_in_arrival_order_witness :
  DzkZone.getCurrentTemperature (statics den) (dzkz den)
  = Returned (ReadPresentValue "192.168.1.50" "AI:0") /\
  exists w1 k1 w2 k2,
    DzkZoneAccessory.getCurrentTemperature den
    = Await w1 (ReadPresentValue "192.168.1.50" "AI:0") k1 /\
    DzkZoneAccessory.getCurrentTemperature w1
    = Await w2 (ReadPresentValue "192.168.1.50" "AI:0") k2 /\
    currentTemperature
      (internalStates
         (world_of (k1 (Resolved 68) (world_of (k2 (Resolved 77) w2)))))
    = f2c 68.
Proof.
  split; [reflexivity|].
  destruct (refreshes_complete_in_arrival_order
              den (ReadPresentValue "192.168.1.50" "AI:0") 68 77 eq_refl)
    as (w1 & k1 & w2 & k2 & H1 & H2 & _ & _ & H4 & _).
  exists w1, k1, w2, k2. repeat split; assumption.
Defined.

